(** * Customs exchange-rate bulletins: weekly ranges and record extraction

    A shallow embedding of the two Python programs of the repository:

    - [download_csv_to_gcs.py]: [get_sunday], [get_saturday],
      [generate_weekly_ranges] and the file name built by [download_csv];
    - [main.py]: the body of [fetch_customs_rate], cut at the places where
      the specification names its steps (link discovery, row selection, date
      extraction from the file name, rate selection, record construction).

    Python's [datetime.date] is embedded with the algorithms of the standard
    library ([_ymd2ord], [_ord2ymd], the overflow test of [date.__add__]);
    Python's [float] is the kernel's binary64. *)

From Stdlib Require Import ZArith List Bool Lia Ascii String.
From Stdlib Require Import Floats.
Import ListNotations.
Local Open Scope Z_scope.

(** ** Exceptions and results *)

(** The exceptions the modelled code can raise. *)
Inductive exn : Type :=
| OverflowError   (* date value out of range *)
| ValueError      (* pandas.to_datetime: the text is not a date of the format;
                     a frame selected by a frame with a repeated label *)
| IndexError.     (* DataFrame.iloc: single positional indexer is out-of-bounds *)

Inductive result (A : Type) : Type :=
| Ok (a : A)
| Raise (e : exn).
Arguments Ok {A} a.
Arguments Raise {A} e.

Definition bind {A B : Type} (r : result A) (k : A -> result B) : result B :=
  match r with
  | Ok a => k a
  | Raise e => Raise e
  end.

Notation "x <- r ;; k" := (bind r (fun x => k))
  (at level 61, r at next level, right associativity).

(** ** Python's [datetime.date] *)

Module Calendar.

Record date : Type := mkdate { year : Z; month : Z; day : Z }.

Definition MINYEAR : Z := 1.
Definition MAXYEAR : Z := 9999.
(** [date.max.toordinal()] *)
Definition MAXORDINAL : Z := 3652059.

(** [_is_leap]: year -> 1 if leap year, else 0. *)
Definition is_leap (y : Z) : bool :=
  (y mod 4 =? 0) && (negb (y mod 100 =? 0) || (y mod 400 =? 0)).

(** [_days_before_year]: number of days before January 1st of year. *)
Definition days_before_year (y : Z) : Z :=
  let y' := y - 1 in y' * 365 + y' / 4 - y' / 100 + y' / 400.

(** [_DAYS_IN_MONTH] *)
Definition DAYS_IN_MONTH (m : Z) : Z :=
  match m with
  | 1 => 31 | 2 => 28 | 3 => 31 | 4 => 30 | 5 => 31 | 6 => 30
  | 7 => 31 | 8 => 31 | 9 => 30 | 10 => 31 | 11 => 30 | 12 => 31
  | _ => -1
  end.

(** [_DAYS_BEFORE_MONTH] *)
Definition DAYS_BEFORE_MONTH (m : Z) : Z :=
  match m with
  | 1 => 0 | 2 => 31 | 3 => 59 | 4 => 90 | 5 => 120 | 6 => 151
  | 7 => 181 | 8 => 212 | 9 => 243 | 10 => 273 | 11 => 304 | 12 => 334
  | _ => -1
  end.

(** [_days_in_month] *)
Definition days_in_month (y m : Z) : Z :=
  if (m =? 2) && is_leap y then 29 else DAYS_IN_MONTH m.

(** [_days_before_month] *)
Definition days_before_month (y m : Z) : Z :=
  DAYS_BEFORE_MONTH m + (if (2 <? m) && is_leap y then 1 else 0).

(** [_ymd2ord]: ordinal, considering 01-Jan-0001 as day 1. *)
Definition ymd2ord (y m d : Z) : Z :=
  days_before_year y + days_before_month y m + d.

Definition DI400Y : Z := 146097.
Definition DI100Y : Z := 36524.
Definition DI4Y : Z := 1461.

(** The part of [_ord2ymd] after the 400-year cycle [n400] has been split
    off: [n] is the zero-based day within the cycle. *)
Definition ord2ymd_cycle (n400 n : Z) : Z * Z * Z :=
  let y0 := n400 * 400 + 1 in
  let n100 := n / DI100Y in
  let n := n mod DI100Y in
  let n4 := n / DI4Y in
  let n := n mod DI4Y in
  let n1 := n / 365 in
  let n := n mod 365 in
  let y := y0 + n100 * 100 + n4 * 4 + n1 in
  if (n1 =? 4) || (n100 =? 4) then (y - 1, 12, 31)
  else
    let leapyear := (n1 =? 3) && (negb (n4 =? 24) || (n100 =? 3)) in
    let m := Z.shiftr (n + 50) 5 in
    let preceding :=
      DAYS_BEFORE_MONTH m + (if (2 <? m) && leapyear then 1 else 0) in
    if n <? preceding then
      let m' := m - 1 in
      let preceding' :=
        preceding
        - (DAYS_IN_MONTH m' + (if (m' =? 2) && leapyear then 1 else 0)) in
      (y, m', n - preceding' + 1)
    else (y, m, n - preceding + 1).

(** [_ord2ymd]: ordinal -> (year, month, day). *)
Definition ord2ymd (n : Z) : Z * Z * Z :=
  let n := n - 1 in
  ord2ymd_cycle (n / DI400Y) (n mod DI400Y).

(** What the constructor [date(year, month, day)] accepts. *)
Definition valid_date (d : date) : bool :=
  (MINYEAR <=? year d) && (year d <=? MAXYEAR)
  && (1 <=? month d) && (month d <=? 12)
  && (1 <=? day d) && (day d <=? days_in_month (year d) (month d)).

Definition toordinal (d : date) : Z := ymd2ord (year d) (month d) (day d).

Definition fromordinal (n : Z) : date :=
  let '(y, m, d) := ord2ymd n in mkdate y m d.

(** [date.weekday()]: Monday = 0 ... Sunday = 6. *)
Definition weekday (d : date) : Z := (toordinal d + 6) mod 7.

(** [date + timedelta(days=k)]; [date - timedelta(days=k)] is
    [add_days d (- k)]. *)
Definition add_days (d : date) (k : Z) : result date :=
  let o := toordinal d + k in
  if (0 <? o) && (o <=? MAXORDINAL) then Ok (fromordinal o)
  else Raise OverflowError.

(** Comparison of dates is the comparison of (year, month, day). *)
Definition date_ltb (a b : date) : bool :=
  (year a <? year b)
  || ((year a =? year b)
      && ((month a <? month b)
          || ((month a =? month b) && (day a <? day b)))).

Definition date_eqb (a b : date) : bool :=
  (year a =? year b) && (month a =? month b) && (day a =? day b).

Definition date_leb (a b : date) : bool := date_ltb a b || date_eqb a b.

End Calendar.

Import Calendar.

(** ** Python [str]

    A text is a [string] whose characters are the code points below 256.
    In that range [\d] matches the ten ASCII digits, and [str.strip] removes
    the characters for which [str.isspace] holds. *)

Definition code (c : ascii) : Z := Z.of_nat (nat_of_ascii c).

(** A character matched by [\d]. *)
Definition is_digit (c : ascii) : bool := (48 <=? code c) && (code c <=? 57).

(** [str.isspace] on one character. *)
Definition is_space (c : ascii) : bool :=
  let n := code c in
  ((9 <=? n) && (n <=? 13)) || ((28 <=? n) && (n <=? 32))
  || (n =? 133) || (n =? 160).

Fixpoint lstrip (s : string) : string :=
  match s with
  | EmptyString => EmptyString
  | String c s' => if is_space c then lstrip s' else s
  end.

Fixpoint rstrip (s : string) : string :=
  match s with
  | EmptyString => EmptyString
  | String c s' =>
      match rstrip s' with
      | EmptyString => if is_space c then EmptyString else String c EmptyString
      | r => String c r
      end
  end.

(** [s.strip()] *)
Definition strip (s : string) : string := rstrip (lstrip s).

(** [s.replace(",", "")] *)
Fixpoint remove_commas (s : string) : string :=
  match s with
  | EmptyString => EmptyString
  | String c s' =>
      if Ascii.eqb c "," then remove_commas s' else String c (remove_commas s')
  end.

(** [sub in s] *)
Fixpoint contains (sub s : string) : bool :=
  prefix sub s
  || match s with
     | EmptyString => false
     | String _ s' => contains sub s'
     end.

(** [s.endswith(suffix)] *)
Definition endswith (s suffix : string) : bool :=
  let n := String.length s in
  let k := String.length suffix in
  (k <=? n)%nat && String.eqb (substring (n - k) k s) suffix.

(** [s.split("/")]: the pieces between the slashes, never empty as a list. *)
Fixpoint split_slash (s : string) : list string :=
  match s with
  | EmptyString => [EmptyString]
  | String c s' =>
      if Ascii.eqb c "/" then EmptyString :: split_slash s'
      else match split_slash s' with
           | [] => [String c EmptyString]
           | piece :: pieces => String c piece :: pieces
           end
  end.

(** [re.findall(r"\d{6}", s)]: the scan tries a match at each position from
    the left; after a match it resumes behind the six digits, otherwise one
    character further. *)
Fixpoint findall_d6 (s : string) : list string :=
  match s with
  | EmptyString => []
  | String c1 s1 =>
      match s1 with
      | String c2 (String c3 (String c4 (String c5 (String c6 rest)))) =>
          if is_digit c1 && is_digit c2 && is_digit c3
             && is_digit c4 && is_digit c5 && is_digit c6
          then String c1 (String c2 (String c3 (String c4 (String c5
                 (String c6 EmptyString))))) :: findall_d6 rest
          else findall_d6 s1
      | _ => []
      end
  end.

(** The value of a decimal digit, and of a run of digits read as a number. *)
Definition digit_value (c : ascii) : Z := code c - 48.

Fixpoint int_of_digits (acc : Z) (s : string) : Z :=
  match s with
  | EmptyString => acc
  | String c s' => int_of_digits (10 * acc + digit_value c) s'
  end.

Fixpoint all_digits (s : string) : bool :=
  match s with
  | EmptyString => true
  | String c s' => is_digit c && all_digits s'
  end.

(** ** Formatting and parsing dates *)

Definition digit_char (n : Z) : ascii := ascii_of_nat (Z.to_nat (48 + n)).

(** A number below 100 on two digits, zero padded. *)
Definition two_digits (n : Z) : string :=
  String (digit_char (n / 10)) (String (digit_char (n mod 10)) EmptyString).

(** [d.strftime("%y%m%d")] *)
Definition strftime_yymmdd (d : date) : string :=
  (two_digits (year d mod 100) ++ two_digits (month d) ++ two_digits (day d))%string.

(** [pd.to_datetime(s, format="%Y%m%d").date()] on a text of eight
    characters, the only texts the program passes: four digits of year, two
    of month, two of day, and the date must exist. *)
Definition to_datetime_Ymd (s : string) : result date :=
  if (String.length s =? 8)%nat && all_digits s then
    let d := mkdate (int_of_digits 0 (substring 0 4 s))
                    (int_of_digits 0 (substring 4 2 s))
                    (int_of_digits 0 (substring 6 2 s)) in
    if valid_date d then Ok d else Raise ValueError
  else Raise ValueError.

(** ** [download_csv_to_gcs.py] *)

(** [get_sunday]: the Sunday of the week of the date. *)
Definition get_sunday (date : Calendar.date) : result Calendar.date :=
  let days_since_sunday := weekday date + 1 in
  let days_since_sunday :=
    if days_since_sunday =? 7 then 0 else days_since_sunday in
  add_days date (- days_since_sunday).

(** [get_saturday]: the Saturday of the week of the date. *)
Definition get_saturday (date : Calendar.date) : result Calendar.date :=
  let days_until_saturday := 5 - weekday date in
  let days_until_saturday :=
    if days_until_saturday <? 0 then days_until_saturday + 7
    else days_until_saturday in
  add_days date days_until_saturday.

(** One element of [ranges]: [(start_str, end_str, week_start, week_end)]. *)
Record week_range : Type := mkrange {
  start_str : string;
  end_str : string;
  week_start : date;
  week_end : date
}.

(** The [while current <= end_date] loop of [generate_weekly_ranges].  The
    fuel bounds the number of iterations; [None] is a loop cut short by the
    bound, which [generate_weekly_ranges] never meets on dates. *)
Fixpoint weekly_loop (fuel : nat) (current end_date : date)
    (ranges : list week_range) {struct fuel}
  : option (result (list week_range)) :=
  if date_leb current end_date then
    match fuel with
    | O => None
    | S fuel' =>
        let week_start := current in
        match add_days current 6 with
        | Raise e => Some (Raise e)
        | Ok week_end =>
            let start_str := strftime_yymmdd week_start in
            let end_str := strftime_yymmdd week_end in
            let ranges :=
              ranges ++ [mkrange start_str end_str week_start week_end] in
            match add_days current 7 with
            | Raise e => Some (Raise e)
            | Ok current => weekly_loop fuel' current end_date ranges
            end
        end
    end
  else Some (Ok ranges).

(** One iteration moves [current] seven days towards [end_date]. *)
Definition weekly_fuel (current end_date : date) : nat :=
  Z.to_nat (toordinal end_date - toordinal current + 1).

(** [generate_weekly_ranges] *)
Definition generate_weekly_ranges (start_date end_date : date)
  : option (result (list week_range)) :=
  match get_sunday start_date with
  | Raise e => Some (Raise e)
  | Ok current =>
      weekly_loop (weekly_fuel current end_date) current end_date []
  end.

(** The file name [download_csv] asks for: [f"{start_str}-{end_str}.csv"]. *)
Definition filename (start_str end_str : string) : string :=
  (start_str ++ "-" ++ end_str ++ ".csv")%string.

(** The identifier of a weekly window [(week_start, week_end)]: the two
    texts [generate_weekly_ranges] stores beside the dates. *)
Definition to_identifier (w : date * date) : string * string :=
  (strftime_yymmdd (fst w), strftime_yymmdd (snd w)).

(** ** [main.py]: [fetch_customs_rate] *)

(** An element of the parsed page, in document order: its tag name and its
    [href] attribute when it has one. *)
Record tag : Type := mktag { tag_name : string; href : option string }.

(** The frame [pd.read_csv] returns: the column labels as [str(c)] shows
    them, and the rows; a cell is the text [str(val)] of its value, and
    every row has as many cells as the frame has columns. *)
Record DataFrame : Type := mkframe {
  columns : list string;
  rows : list (list string)
}.

(** The row appended to the table. *)
Record ExchangeRateRecord : Type := mkrecord {
  start_date : date;
  end_date : date;
  iso_code : string;
  currency_name : string;
  rate : float;
  source_file : string
}.

(** Which branch dated the record: the file name, or the branch that prints
    "Could not extract date from filename. Using current date.". *)
Inductive date_source : Type := FromFilename | CurrentDate.

(** What [fetch_customs_rate] answers after the download. *)
Inductive outcome : Type :=
| Loaded (r : ExchangeRateRecord)  (* "Success: Loaded CNY rate ...", 200 *)
| MissingColumnError               (* "ISO column not found in CSV", 500 *)
| CurrencyNotFoundError            (* "CNY data not found", 404 *)
| RateNotFoundError                (* "Valid rate not found", 500 *)
| Error (e : exn).                 (* except Exception: "Error: ...", 500 *)

Definition base_url : string :=
  "https://www.customs.go.jp/tetsuzuki/kawase/index.htm".

(** [lambda h: h and ".csv" in h and "csv" in h], applied to the [href] of
    a tag ([None] when the tag has none). *)
Definition href_filter (h : option string) : bool :=
  match h with
  | None => false
  | Some h =>
      negb (String.eqb h "") && contains ".csv" h && contains "csv" h
  end.

(** [soup.find("a", href=...)]: the first tag named [a], in document
    order, whose [href] passes the filter. *)
Definition find_csv_link (soup : list tag) : option tag :=
  find (fun t => String.eqb (tag_name t) "a" && href_filter (href t)) soup.

(** [re.findall] and the two branches that date the record. *)
Definition extract_dates (today : date) (file_name : string)
  : result (date_source * date * date) :=
  match findall_d6 file_name with
  | m0 :: m1 :: _ =>
      start_date <- to_datetime_Ymd ("20" ++ m0) ;;
      end_date <- to_datetime_Ymd ("20" ++ m1) ;;
      Ok (FromFilename, start_date, end_date)
  | _ => Ok (CurrentDate, today, today)
  end.

(** [cny_row.iloc[0, j]] on the first selected row. *)
Definition iloc (row : list string) (j : nat) : result string :=
  match nth_error row j with
  | Some val => Ok val
  | None => Raise IndexError
  end.

(** The positions of a label among the column labels. *)
Fixpoint label_positions (label : string) (j : nat) (cols : list string)
  : list nat :=
  match cols with
  | [] => []
  | c :: cols' =>
      if String.eqb c label then j :: label_positions label (S j) cols'
      else label_positions label (S j) cols'
  end.

(** [df[df["ISO"] == "CNY"]] when [iso] is the position of the one column
    labelled ISO: the rows whose cell there is the text CNY. *)
Definition select_rows (iso : nat) (rows : list (list string))
  : list (list string) :=
  filter (fun row =>
            match nth_error row iso with
            | Some val => String.eqb val "CNY"
            | None => false
            end) rows.

Section FetchCustomsRate.

(** [urllib.parse.urljoin] and the built-in [float] (with [None] for the
    texts on which it raises). *)
Variable urljoin : string -> string -> string.
Variable float_of_str : string -> option float.

(** Step 1: the address of the latest bulletin, or "CSV link not found"
    (404) when no link passes. *)
Definition locate_latest (soup : list tag) : option string :=
  match find_csv_link soup with
  | None => None
  | Some csv_link_tag =>
      match href csv_link_tag with
      | Some relative_path => Some (urljoin base_url relative_path)
      | None => None
      end
  end.

(** [to_float]: [float(str(val).replace(",", ""))], [None] on failure. *)
Definition to_float (val : string) : option float :=
  float_of_str (remove_commas val).

(** [v is not None and v > 0] *)
Definition is_positive (v : option float) : bool :=
  match v with
  | Some x => PrimFloat.ltb 0 x
  | None => false
  end.

(** The choice between the two candidates; [None] is "Valid rate not
    found". *)
Definition final_rate (v1 v100 : option float) : option float :=
  if is_positive v1 then v1
  else if is_positive v100 then option_map (fun x => PrimFloat.div x 100) v100
  else None.

(** The two cells read from the selected row, then the choice. *)
Definition select_rate (row : list string) : result (option float) :=
  rate_1 <- iloc row 4 ;;
  rate_100 <- iloc row 5 ;;
  Ok (final_rate (to_float rate_1) (to_float rate_100)).

(** Steps 4 of [fetch_customs_rate], from the frame to the row to load.
    When two labels or more strip to ISO, [df["ISO"]] is a frame of these
    columns and not a column, [df["ISO"] == "CNY"] is a frame of booleans
    under the same repeated label, and [df[...]] with it raises
    [ValueError] (an axis with duplicate labels is not reindexed), which
    [except Exception] answers. *)
Definition extract_rate (today : date) (df : DataFrame) (file_name : string)
  : outcome :=
  let columns := map strip (columns df) in
  match label_positions "ISO" 0 columns with
  | [] => MissingColumnError
  | [iso] =>
      match select_rows iso (rows df) with
      | [] => CurrencyNotFoundError
      | cny_row :: _ =>
          match extract_dates today file_name with
          | Raise e => Error e
          | Ok (_, start_date, end_date) =>
              match select_rate cny_row with
              | Raise e => Error e
              | Ok None => RateNotFoundError
              | Ok (Some final_rate) =>
                  Loaded (mkrecord start_date end_date "CNY" "人民元"
                            final_rate file_name)
              end
          end
      end
  | _ :: _ :: _ => Error ValueError
  end.

(** What is left of [extract_rate] once the row is selected. *)
Definition load_row (today : date) (file_name : string)
    (cny_row : list string) : outcome :=
  match extract_dates today file_name with
  | Raise e => Error e
  | Ok (_, start_date, end_date) =>
      match select_rate cny_row with
      | Raise e => Error e
      | Ok None => RateNotFoundError
      | Ok (Some final_rate) =>
          Loaded (mkrecord start_date end_date "CNY" "人民元"
                    final_rate file_name)
      end
  end.

End FetchCustomsRate.

(** ** Auxiliary definitions for the calendar proofs *)

(** [p] holds of the [n] integers from [k] on. *)
Fixpoint all_from (n : nat) (k : Z) (p : Z -> bool) : bool :=
  match n with
  | O => true
  | S n' => p k && all_from n' (k + 1) p
  end.

(** The day [r] of the first 400-year cycle goes to fields of a date and
    back to its ordinal. *)
Definition cycle_day_ok (r : Z) : bool :=
  let '(y, m, d) := ord2ymd_cycle 0 r in
  (ymd2ord y m d =? r + 1)
  && (1 <=? y) && (y <=? 400)
  && (1 <=? m) && (m <=? 12)
  && (1 <=? d) && (d <=? days_in_month y m).

Definition days_in_year (y : Z) : Z := if is_leap y then 366 else 365.

(** Month and day of a date of year [y]. *)
Definition wf_ymd (y m d : Z) : Prop :=
  1 <= m <= 12 /\ 1 <= d <= days_in_month y m.

(** ** The sequence of weekly windows *)

(** The windows the loop appends from [current] on: one per step of seven
    days while [current <= end_date]. *)
Inductive weeks_from (end_date : date) : date -> list week_range -> Prop :=
| weeks_done current :
    date_leb current end_date = false ->
    weeks_from end_date current []
| weeks_step current week_end next ws :
    date_leb current end_date = true ->
    add_days current 6 = Ok week_end ->
    add_days current 7 = Ok next ->
    weeks_from end_date next ws ->
    weeks_from end_date current
      (mkrange (strftime_yymmdd current) (strftime_yymmdd week_end)
         current week_end :: ws).

(** Neighbours in the sequence: the next window starts seven days after the
    start, and one day after the end, of the window before it. *)
Fixpoint consecutive (ws : list week_range) : Prop :=
  match ws with
  | w1 :: (w2 :: _) as rest =>
      add_days (week_start w1) 7 = Ok (week_start w2)
      /\ add_days (week_end w1) 1 = Ok (week_start w2)
      /\ date_ltb (week_end w1) (week_start w2) = true
      /\ consecutive rest
  | _ => True
  end.

(** What each window of the sequence satisfies. *)
Definition window_ok (end_date : date) (w : week_range) : Prop :=
  weekday (week_start w) = 6
  /\ add_days (week_start w) 6 = Ok (week_end w)
  /\ date_leb (week_start w) end_date = true
  /\ (start_str w, end_str w) = to_identifier (week_start w, week_end w).

(** The first Sunday and the last Saturday whose weeks [generate_weekly_ranges]
    can step through without leaving [date.min .. date.max]. *)
Definition FIRST_SUNDAY : date := mkdate 1 1 7.
Definition LAST_SATURDAY : date := mkdate 9999 12 25.

(** ** Spans of a hundred years *)

(** The dates of the hundred years that start at [S]: from [S] on, and
    before the same month and day a hundred years later. *)
Definition in_century (S d : date) : Prop :=
  date_leb S d = true
  /\ date_ltb d (mkdate (year S + 100) (month S) (day S)) = true.

(** ** Runs of digits in a file name *)

(** The maximal runs of consecutive digits of a text, from left to right. *)
Fixpoint digit_runs (s : string) : list string :=
  match s with
  | EmptyString => []
  | String c s' =>
      let runs := digit_runs s' in
      if is_digit c then
        match s' with
        | String c' _ =>
            if is_digit c' then
              match runs with
              | run :: runs' => String c run :: runs'
              | [] => [String c EmptyString]
              end
            else String c EmptyString :: runs
        | EmptyString => String c EmptyString :: runs
        end
      else runs
  end.

(** The runs of exactly six consecutive digits, as the specification words
    the scan of the file name. *)
Definition runs_of_six (s : string) : list string :=
  filter (fun run => (String.length run =? 6)%nat) (digit_runs s).

(** A run of digits cut into blocks of six from the left; what is left
    over at the end is dropped. *)
Fixpoint blocks_of_six (run : string) : list string :=
  match run with
  | String c1 (String c2 (String c3 (String c4 (String c5 (String c6 rest))))) =>
      String c1 (String c2 (String c3 (String c4 (String c5
        (String c6 EmptyString))))) :: blocks_of_six rest
  | _ => []
  end.

(** The text starts with six digits. *)
Definition six_digits (s : string) : bool :=
  match s with
  | String c1 (String c2 (String c3 (String c4 (String c5 (String c6 _))))) =>
      is_digit c1 && is_digit c2 && is_digit c3
      && is_digit c4 && is_digit c5 && is_digit c6
  | _ => false
  end.

(** The digits a text starts with, and the rest. *)
Fixpoint span_digits (s : string) : string * string :=
  match s with
  | EmptyString => (EmptyString, EmptyString)
  | String c s' =>
      if is_digit c then
        let (run, rest) := span_digits s' in (String c run, rest)
      else (EmptyString, s)
  end.

Definition starts_nondigit (s : string) : Prop :=
  match s with
  | EmptyString => True
  | String c _ => is_digit c = false
  end.

(** ** Columns, references and examples *)

Local Open Scope string_scope.

(** [label] names the column at position [j], and no other column. *)
Definition only_column (label : string) (labels : list string) (j : nat)
  : Prop :=
  nth_error labels j = Some label
  /\ forall i, nth_error labels i = Some label -> i = j.

(** A reference as the specification and the comment of the source word
    it: one of its path segments is [csv] and it ends with [.csv]. *)
Definition csv_segment_and_suffix (h : string) : bool :=
  existsb (String.eqb "csv") (split_slash h) && endswith h ".csv".

(** The values of [float] on the texts of the examples; [float] raises on
    the empty text. *)
Definition sample_floats : list (string * float) :=
  [("19.50", 19.5%float); ("1950.00", 1950%float); ("1234.5", 1234.5%float);
   ("0", 0%float); ("nan", nan); ("5e-324", 0x1p-1074%float)].

Definition float_of_sample (s : string) : option float :=
  option_map snd (find (fun p => String.eqb (fst p) s) sample_floats).

(** A bulletin of six columns, and the frames and pages of the examples. *)
Definition sample_columns : list string :=
  ["Country"; " ISO "; "Currency"; "Unit"; "Rate"; "Rate100"].
Definition sample_frame : DataFrame :=
  mkframe sample_columns
    [["USA"; "USD"; "Dollar"; "1"; "150.25"; "nan"];
     ["China"; "CNY"; "Yuan"; "1"; "19.50"; "nan"];
     ["China"; "CNY"; "Yuan"; "1"; "1,234.5"; "nan"]].

(** A frame of five columns: the row has a cell at position 4 and none at
    position 5. *)
Definition short_frame : DataFrame :=
  mkframe ["Country"; "ISO"; "Currency"; "Unit"; "Rate"]
    [["China"; "CNY"; "Yuan"; "1"; "19.50"]].


(** A frame whose per-unit cell is empty ([nan]); the per-100 cell holds
    the text of the second argument. *)
Definition per_100_frame (rate_100 : string) : DataFrame :=
  mkframe sample_columns [["China"; "CNY"; "Yuan"; "100"; "nan"; rate_100]].

Definition sample_today : date := mkdate 2026 11 4.

(** A page whose first link holds [.csv] inside its reference, before the
    link of the bulletin. *)
Definition sample_page : list tag :=
  [mktag "html" None; mktag "a" (Some "index.htm");
   mktag "a" None; mktag "a" (Some "guide.csv.html");
   mktag "a" (Some "csv/240107-240113.csv")].

(** ** [download_csv_to_gcs.py]: [download_csv] and [main] *)

Definition BASE_URL : string := "https://www.customs.go.jp/tetsuzuki/kawase/csv".
Definition OUTPUT_DIR : string := "/home/user/webapp/downloaded_csv".
Definition START_DATE : date := mkdate 2023 1 1.

(** What [requests.get] gives: a response with its status code and body,
    or a [requests.RequestException]. *)
Inductive http_response : Type :=
| Response (status_code : Z) (content : string)
| RequestException.

(** [download_csv]: the body when the status is 200, and the file name. *)
Definition download_csv (get : string -> http_response)
    (start_str end_str : string) : option string * string :=
  let filename := filename start_str end_str in
  let url := BASE_URL ++ "/" ++ filename in
  match get url with
  | Response status_code content =>
      if (status_code =? 200)%Z then (Some content, filename)
      else if (status_code =? 404)%Z then (None, filename)
      else (None, filename)
  | RequestException => (None, filename)
  end.

(** [os.path.join] of two components. *)
Definition path_join (a b : string) : string :=
  match b with
  | String "/" _ => b
  | _ => if String.eqb a "" || endswith a "/" then a ++ b else a ++ "/" ++ b
  end.

(** The files of the archive: the paths written so far with their
    content, the latest first. *)
Definition file_system : Type := list (string * string).

(** [os.path.exists] *)
Definition path_exists (fs : file_system) (path : string) : bool :=
  existsb (fun entry => String.eqb (fst entry) path) fs.

Definition read_file (fs : file_system) (path : string) : option string :=
  option_map snd (find (fun entry => String.eqb (fst entry) path) fs).

(** [open(path, "wb")] and [write] *)
Definition write_file (fs : file_system) (path content : string)
  : file_system :=
  (path, content) :: fs.

(** The variables of the loop of [main], the files, and the addresses asked
    of the server, the latest first. *)
Record run : Type := mkrun {
  files : file_system;
  requests : list string;
  downloaded_count : nat;
  skipped_count : nat;
  failed_count : nat;
  downloaded_files : list string
}.

(** [if content:] on what [download_csv] returns: a body that is not
    empty. *)
Definition truthy (content : option string) : bool :=
  match content with
  | Some (String _ _) => true
  | _ => false
  end.

(** One turn of the loop [for ... in enumerate(weekly_ranges, 1)]. *)
Definition download_week (get : string -> http_response) (st : run)
    (w : week_range) : run :=
  let filename := filename (start_str w) (end_str w) in
  let filepath := path_join OUTPUT_DIR filename in
  if path_exists (files st) filepath then
    mkrun (files st) (requests st) (downloaded_count st)
      (skipped_count st + 1)%nat (failed_count st)
      (downloaded_files st ++ [filepath])
  else
    let (content, _) := download_csv get (start_str w) (end_str w) in
    let requests := (BASE_URL ++ "/" ++ filename) :: requests st in
    if truthy content then
      mkrun (write_file (files st) filepath
               match content with Some c => c | None => "" end)
        requests (downloaded_count st + 1)%nat (skipped_count st)
        (failed_count st) (downloaded_files st ++ [filepath])
    else
      mkrun (files st) requests (downloaded_count st) (skipped_count st)
        (failed_count st + 1)%nat (downloaded_files st).

Definition download_weeks (get : string -> http_response)
    (weekly_ranges : list week_range) (st : run) : run :=
  fold_left (download_week get) weekly_ranges st.

(** [sorted] on texts: insertion in the order of the code points. *)
Fixpoint insert_sorted (s : string) (l : list string) : list string :=
  match l with
  | [] => [s]
  | x :: l' => if String.leb s x then s :: l else x :: insert_sorted s l'
  end.

Definition sorted (l : list string) : list string :=
  fold_right insert_sorted [] l.

(** [os.path.basename] *)
Definition basename (path : string) : string := last (split_slash path) "".

(** The lines of [downloaded_files.txt]. *)
Definition manifest (downloaded_files : list string) : string :=
  concat "" (map (fun filepath => basename filepath ++ String "010" "")
               (sorted downloaded_files)).

(** [main], from the files found at the start: the weeks from
    [START_DATE] to the day of the run, the loop, and the list file. *)
Definition main (get : string -> http_response) (today : date)
    (fs : file_system) : option (result run) :=
  match generate_weekly_ranges START_DATE today with
  | None => None
  | Some (Raise e) => Some (Raise e)
  | Some (Ok weekly_ranges) =>
      let st := download_weeks get weekly_ranges (mkrun fs [] 0%nat 0%nat 0%nat []) in
      let list_file := path_join OUTPUT_DIR "downloaded_files.txt" in
      Some (Ok (mkrun (write_file (files st) list_file
                         (manifest (downloaded_files st)))
                  (requests st) (downloaded_count st) (skipped_count st)
                  (failed_count st) (downloaded_files st)))
  end.



(** The path of the file of a week. *)
Definition week_path (w : week_range) : string :=
  path_join OUTPUT_DIR (filename (start_str w) (end_str w)).

Definition week_url (w : week_range) : string :=
  BASE_URL ++ "/" ++ filename (start_str w) (end_str w).

(** The server has a body for the address: status 200 and a body that is
    not empty. *)
Definition has_body (get : string -> http_response) (url : string) : bool :=
  match get url with
  | Response 200 (String _ _) => true
  | _ => false
  end.



(** A server that has the file of the week of 2023-01-08 and no other, a
    server that has none, and an archive that holds the week of
    2023-01-01. *)
Definition sample_get (url : string) : http_response :=
  if String.eqb url (BASE_URL ++ "/230108-230114.csv")
  then Response 200 "body" else Response 404 "".

Definition get_nothing (url : string) : http_response := Response 200 "".

Definition sample_weeks : list week_range :=
  [mkrange "230101" "230107" (mkdate 2023 1 1) (mkdate 2023 1 7);
   mkrange "230108" "230114" (mkdate 2023 1 8) (mkdate 2023 1 14)].

Definition sample_run : run :=
  mkrun [(path_join OUTPUT_DIR "230101-230107.csv", "old")] []
    0%nat 0%nat 0%nat [].

(** ** [main.py]: the file name, and the whole function *)

(** [file_name = csv_url.split("/")[-1]] *)
Definition file_name_of_url (csv_url : string) : string :=
  last (split_slash csv_url) "".

(** Every character of the text is white space. *)
Fixpoint all_space (s : string) : bool :=
  match s with
  | EmptyString => true
  | String c s' => is_space c && all_space s'
  end.


(** ** [main.py]: the whole of [fetch_customs_rate] *)

(** What [pd.read_csv] gives for an encoding: a frame, a
    [UnicodeDecodeError], or another exception. *)
Inductive read_result : Type :=
| Frame (df : DataFrame)
| UnicodeDecodeError
| ReadError.

(** The calls outside the program that can raise. *)
Inductive failure : Type :=
| RequestFailed   (* requests.get, raise_for_status *)
| UploadFailed    (* blob.upload_from_string *)
| ReadFailed      (* pd.read_csv *)
| LoadFailed.     (* load_table_from_dataframe(...).result() *)

(** The answer of the function: "CSV link not found" (404), the answer of
    the extraction ([Loaded] once the row is appended, 200), or the
    handler of [except Exception] (500) for a call that raised. *)
Inductive reply : Type :=
| CsvLinkNotFound
| Extracted (o : outcome)
| Failed (f : failure).

(** The bucket (blob names with their content, the latest first) and the
    rows of the table. *)
Record stores : Type := mkstores {
  bucket : list (string * string);
  table : list ExchangeRateRecord
}.

Section Pipeline.

Variable requests_get : string -> option string.
Variable html_parser : string -> list tag.
Variable urljoin : string -> string -> string.
Variable blob_upload : string -> string -> bool.
Variable read_csv : string -> string -> read_result.
Variable float_of_str : string -> option float.
Variable load_table : ExchangeRateRecord -> bool.
Variable today : date.

(** [pd.read_csv] with cp932, and with utf-8 after a
    [UnicodeDecodeError]. *)
Definition read_frame (csv_content_bytes : string) : option DataFrame :=
  match read_csv csv_content_bytes "cp932" with
  | Frame df => Some df
  | UnicodeDecodeError =>
      match read_csv csv_content_bytes "utf-8" with
      | Frame df => Some df
      | _ => None
      end
  | ReadError => None
  end.

Definition fetch_customs_rate (st : stores) : reply * stores :=
  match requests_get base_url with
  | None => (Failed RequestFailed, st)
  | Some content =>
      match locate_latest urljoin (html_parser content) with
      | None => (CsvLinkNotFound, st)
      | Some csv_url =>
          let file_name := file_name_of_url csv_url in
          match requests_get csv_url with
          | None => (Failed RequestFailed, st)
          | Some csv_content_bytes =>
              let blob := "raw_customs_csv/" ++ file_name in
              if blob_upload blob csv_content_bytes then
                let st := mkstores ((blob, csv_content_bytes) :: bucket st)
                            (table st) in
                match read_frame csv_content_bytes with
                | None => (Failed ReadFailed, st)
                | Some df =>
                    match extract_rate float_of_str today df file_name with
                    | Loaded r =>
                        if load_table r then
                          (Extracted (Loaded r),
                           mkstores (bucket st) (table st ++ [r]))
                        else (Failed LoadFailed, st)
                    | o => (Extracted o, st)
                    end
                end
              else (Failed UploadFailed, st)
          end
      end
  end.

End Pipeline.

Local Close Scope string_scope.

(** * Properties *)

(** ** The calendar: ordinals and dates *)

Lemma all_from_spec n : forall k p,
  all_from n k p = true -> forall j, k <= j < k + Z.of_nat n -> p j = true.
Proof.
  induction n as [|n IH]; intros k p H j Hj.
  - simpl in Hj. lia.
  - simpl in H. apply andb_true_iff in H as [Hk Hrest].
    destruct (Z.eq_dec j k) as [->|Hne]; [exact Hk|].
    apply (IH (k + 1) p Hrest). lia.
Qed.

Lemma cycle_checked : all_from (Z.to_nat DI400Y) 0 cycle_day_ok = true.
Proof. vm_cast_no_check (eq_refl true). Qed.

Lemma cycle_day_ok_all r : 0 <= r < DI400Y -> cycle_day_ok r = true.
Proof.
  intros Hr. apply (all_from_spec _ _ _ cycle_checked).
  rewrite Z2Nat.id by (unfold DI400Y; lia). lia.
Qed.

Lemma is_leap_shift y q : is_leap (y + 400 * q) = is_leap y.
Proof.
  unfold is_leap.
  replace ((y + 400 * q) mod 4) with (y mod 4)
    by (replace (y + 400 * q) with (y + (100 * q) * 4) by lia;
        symmetry; apply Z_mod_plus_full).
  replace ((y + 400 * q) mod 100) with (y mod 100)
    by (replace (y + 400 * q) with (y + (4 * q) * 100) by lia;
        symmetry; apply Z_mod_plus_full).
  replace ((y + 400 * q) mod 400) with (y mod 400)
    by (replace (y + 400 * q) with (y + q * 400) by lia;
        symmetry; apply Z_mod_plus_full).
  reflexivity.
Qed.

Lemma days_before_year_shift y q :
  days_before_year (y + 400 * q) = days_before_year y + DI400Y * q.
Proof.
  unfold days_before_year, DI400Y. cbv zeta.
  Z.div_mod_to_equations. lia.
Qed.

Lemma ymd2ord_shift y m d q :
  ymd2ord (y + 400 * q) m d = ymd2ord y m d + DI400Y * q.
Proof.
  unfold ymd2ord, days_before_month.
  rewrite is_leap_shift, days_before_year_shift. lia.
Qed.

Lemma days_in_month_shift y m q :
  days_in_month (y + 400 * q) m = days_in_month y m.
Proof. unfold days_in_month. now rewrite is_leap_shift. Qed.

Lemma ord2ymd_cycle_shift q r :
  ord2ymd_cycle q r =
  let '(y, m, d) := ord2ymd_cycle 0 r in (y + 400 * q, m, d).
Proof.
  unfold ord2ymd_cycle. cbv zeta.
  repeat match goal with
         | |- context [if ?b then _ else _] => destruct b
         end; f_equal; try f_equal; lia.
Qed.

(** The calendar fields of a positive ordinal, and the way back. *)
Lemma ord2ymd_spec n :
  1 <= n ->
  let '(y, m, d) := ord2ymd n in
  ymd2ord y m d = n /\ 1 <= y /\ 1 <= m <= 12 /\ 1 <= d <= days_in_month y m.
Proof.
  intros Hn. unfold ord2ymd. cbv zeta.
  set (q := (n - 1) / DI400Y). set (r := (n - 1) mod DI400Y).
  assert (Hq : 0 <= q) by (apply Z.div_pos; unfold DI400Y; lia).
  assert (Hr : 0 <= r < DI400Y) by (apply Z.mod_pos_bound; unfold DI400Y; lia).
  assert (Hn' : n - 1 = DI400Y * q + r)
    by (apply Z.div_mod; unfold DI400Y; lia).
  rewrite ord2ymd_cycle_shift.
  pose proof (cycle_day_ok_all r Hr) as Hok. unfold cycle_day_ok in Hok.
  destruct (ord2ymd_cycle 0 r) as [[y m] d].
  repeat (apply andb_true_iff in Hok as [Hok ?]).
  rewrite ymd2ord_shift, days_in_month_shift. lia.
Qed.

Lemma days_before_year_succ y :
  days_before_year (y + 1) = days_before_year y + days_in_year y.
Proof.
  unfold days_before_year, days_in_year, is_leap. cbv zeta.
  replace (y + 1 - 1) with y by lia.
  destruct (Z.eqb_spec (y mod 4) 0), (Z.eqb_spec (y mod 100) 0),
    (Z.eqb_spec (y mod 400) 0); cbn [andb orb negb].
  all: Z.div_mod_to_equations; lia.
Qed.

Lemma days_before_year_mono y1 y2 :
  y1 <= y2 -> days_before_year y1 <= days_before_year y2.
Proof.
  unfold days_before_year. cbv zeta. intros H.
  Z.div_mod_to_equations. lia.
Qed.

Lemma month_cases m :
  1 <= m <= 12 ->
  m = 1 \/ m = 2 \/ m = 3 \/ m = 4 \/ m = 5 \/ m = 6 \/
  m = 7 \/ m = 8 \/ m = 9 \/ m = 10 \/ m = 11 \/ m = 12.
Proof. lia. Qed.

Ltac month_tables :=
  cbv beta iota delta
    [DAYS_BEFORE_MONTH DAYS_IN_MONTH andb Z.eqb Z.ltb Z.compare
     Pos.compare Pos.compare_cont Pos.eqb].

Ltac month_split m H :=
  destruct (month_cases m H) as
    [->|[->|[->|[->|[->|[->|[->|[->|[->|[->|[->| ->]]]]]]]]]]].

(** A day of a month is a day of its year. *)
Lemma day_of_year_bounds y m d :
  1 <= m <= 12 -> 1 <= d <= days_in_month y m ->
  1 <= days_before_month y m + d <= days_in_year y.
Proof.
  intros Hm. unfold days_before_month, days_in_month, days_in_year.
  month_split m Hm; destruct (is_leap y); month_tables; lia.
Qed.

Lemma day_of_year_mono y m1 d1 m2 d2 :
  1 <= m1 <= 12 -> 1 <= m2 <= 12 ->
  1 <= d1 <= days_in_month y m1 -> 1 <= d2 <= days_in_month y m2 ->
  m1 < m2 ->
  days_before_month y m1 + d1 < days_before_month y m2 + d2.
Proof.
  intros Hm1 Hm2. unfold days_before_month, days_in_month.
  month_split m1 Hm1; month_split m2 Hm2; destruct (is_leap y);
    month_tables; lia.
Qed.

Lemma ymd2ord_lt y1 m1 d1 y2 m2 d2 :
  wf_ymd y1 m1 d1 -> wf_ymd y2 m2 d2 ->
  (y1 < y2 \/ (y1 = y2 /\ (m1 < m2 \/ (m1 = m2 /\ d1 < d2)))) ->
  ymd2ord y1 m1 d1 < ymd2ord y2 m2 d2.
Proof.
  intros [Hm1 Hd1] [Hm2 Hd2] Hlex. unfold ymd2ord.
  pose proof (day_of_year_bounds y1 m1 d1 Hm1 Hd1).
  pose proof (day_of_year_bounds y2 m2 d2 Hm2 Hd2).
  destruct Hlex as [Hy|[-> [Hm| [-> Hd]]]].
  - pose proof (days_before_year_succ y1).
    pose proof (days_before_year_mono (y1 + 1) y2 ltac:(lia)). lia.
  - pose proof (day_of_year_mono y2 m1 d1 m2 d2 Hm1 Hm2 Hd1 Hd2 Hm). lia.
  - lia.
Qed.

Lemma ymd2ord_inj y1 m1 d1 y2 m2 d2 :
  wf_ymd y1 m1 d1 -> wf_ymd y2 m2 d2 ->
  ymd2ord y1 m1 d1 = ymd2ord y2 m2 d2 ->
  y1 = y2 /\ m1 = m2 /\ d1 = d2.
Proof.
  intros H1 H2 Heq.
  destruct (Z.lt_total y1 y2) as [Hy|[Hy|Hy]].
  - pose proof (ymd2ord_lt _ _ _ _ _ _ H1 H2 (or_introl Hy)). lia.
  - subst y2. destruct (Z.lt_total m1 m2) as [Hm|[Hm|Hm]].
    + pose proof (ymd2ord_lt _ _ _ _ _ _ H1 H2
                    (or_intror (conj eq_refl (or_introl Hm)))). lia.
    + subst m2. unfold ymd2ord in Heq. lia.
    + pose proof (ymd2ord_lt _ _ _ _ _ _ H2 H1
                    (or_intror (conj eq_refl (or_introl Hm)))). lia.
  - pose proof (ymd2ord_lt _ _ _ _ _ _ H2 H1 (or_introl Hy)). lia.
Qed.

Lemma valid_date_spec d :
  valid_date d = true <->
  (1 <= year d <= 9999 /\ wf_ymd (year d) (month d) (day d)).
Proof.
  unfold valid_date, wf_ymd, MINYEAR, MAXYEAR.
  rewrite !andb_true_iff, !Z.leb_le. tauto.
Qed.

Lemma MAXORDINAL_eq : MAXORDINAL = ymd2ord 9999 12 31.
Proof. reflexivity. Qed.

Lemma toordinal_bounds d :
  valid_date d = true -> 1 <= toordinal d <= MAXORDINAL.
Proof.
  intros Hv. apply valid_date_spec in Hv as [Hy [Hm Hd]].
  unfold toordinal, ymd2ord.
  pose proof (day_of_year_bounds _ _ _ Hm Hd) as Hdoy.
  pose proof (days_before_year_mono 1 (year d) ltac:(lia)) as Hlo.
  pose proof (days_before_year_succ (year d)) as Hs.
  pose proof (days_before_year_mono (year d + 1) 10000 ltac:(lia)) as Hhi.
  change (days_before_year 1) with 0 in Hlo.
  change (days_before_year 10000) with 3652059 in Hhi.
  unfold MAXORDINAL. lia.
Qed.

Lemma toordinal_fromordinal n :
  1 <= n -> toordinal (fromordinal n) = n.
Proof.
  intros Hn. pose proof (ord2ymd_spec n Hn) as H.
  unfold toordinal, fromordinal.
  destruct (ord2ymd n) as [[y m] d]. simpl. tauto.
Qed.

Lemma fromordinal_valid n :
  1 <= n <= MAXORDINAL -> valid_date (fromordinal n) = true.
Proof.
  intros Hn. pose proof (ord2ymd_spec n ltac:(lia)) as H.
  apply valid_date_spec. unfold fromordinal, wf_ymd.
  destruct (ord2ymd n) as [[y m] d]. simpl.
  destruct H as (Ho & Hy & Hm & Hd). repeat split; try lia.
  destruct (Z_le_gt_dec y 9999) as [|Hbig]; [assumption|exfalso].
  unfold ymd2ord in Ho.
  pose proof (day_of_year_bounds _ _ _ Hm Hd).
  pose proof (days_before_year_mono 10000 y ltac:(lia)) as Hhi.
  change (days_before_year 10000) with 3652059 in Hhi.
  unfold MAXORDINAL in Hn. lia.
Qed.

Lemma fromordinal_toordinal d :
  valid_date d = true -> fromordinal (toordinal d) = d.
Proof.
  intros Hv. pose proof (toordinal_bounds d Hv) as Hb.
  pose proof (ord2ymd_spec (toordinal d) ltac:(lia)) as H.
  apply valid_date_spec in Hv as [_ Hwf].
  unfold fromordinal. destruct (ord2ymd (toordinal d)) as [[y m] dd].
  destruct H as (Ho & _ & Hm & Hd).
  destruct (ymd2ord_inj y m dd (year d) (month d) (day d)) as (-> & -> & ->);
    [split; assumption|assumption|exact Ho|].
  destruct d; reflexivity.
Qed.

Lemma date_ltb_toordinal a b :
  valid_date a = true -> valid_date b = true ->
  date_ltb a b = true <-> toordinal a < toordinal b.
Proof.
  intros Ha Hb.
  apply valid_date_spec in Ha as [_ Ha], Hb as [_ Hb].
  unfold date_ltb, toordinal.
  rewrite !orb_true_iff, !andb_true_iff, !Z.ltb_lt, !Z.eqb_eq.
  split.
  - intros H. apply ymd2ord_lt; try assumption. intuition lia.
  - intros H.
    destruct (Z.lt_total (year a) (year b)) as [Hy|[Hy|Hy]]; [now left| |].
    + destruct (Z.lt_total (month a) (month b)) as [Hm|[Hm|Hm]]; [intuition lia| |].
      * destruct (Z.lt_total (day a) (day b)) as [Hd|[Hd|Hd]]; [intuition lia| |].
        -- rewrite Hy, Hm, Hd in H. lia.
        -- pose proof (ymd2ord_lt _ _ _ _ _ _ Hb Ha
             (or_intror (conj (eq_sym Hy)
                (or_intror (conj (eq_sym Hm) Hd))))). lia.
      * pose proof (ymd2ord_lt _ _ _ _ _ _ Hb Ha
             (or_intror (conj (eq_sym Hy) (or_introl Hm)))). lia.
    + pose proof (ymd2ord_lt _ _ _ _ _ _ Hb Ha (or_introl Hy)). lia.
Qed.

Lemma date_eqb_eq a b : date_eqb a b = true <-> a = b.
Proof.
  unfold date_eqb. rewrite !andb_true_iff, !Z.eqb_eq.
  destruct a, b; simpl. split.
  - intros [[-> ->] ->]. reflexivity.
  - intros H. injection H as -> -> ->. auto.
Qed.

Lemma date_leb_toordinal a b :
  valid_date a = true -> valid_date b = true ->
  date_leb a b = true <-> toordinal a <= toordinal b.
Proof.
  intros Ha Hb. unfold date_leb.
  rewrite orb_true_iff, (date_ltb_toordinal a b Ha Hb), date_eqb_eq.
  split.
  - intros [H| ->]; lia.
  - intros H. destruct (Z.eq_dec (toordinal a) (toordinal b)) as [He|Hne].
    + right. rewrite <- (fromordinal_toordinal a Ha),
        <- (fromordinal_toordinal b Hb), He. reflexivity.
    + left. lia.
Qed.

Lemma add_days_ok d k :
  valid_date d = true -> 1 <= toordinal d + k <= MAXORDINAL ->
  exists d', add_days d k = Ok d' /\ valid_date d' = true
             /\ toordinal d' = toordinal d + k.
Proof.
  intros Hv Hr. exists (fromordinal (toordinal d + k)). unfold add_days.
  replace ((0 <? toordinal d + k) && (toordinal d + k <=? MAXORDINAL))
    with true by (symmetry; apply andb_true_iff; split;
                  [apply Z.ltb_lt|apply Z.leb_le]; lia).
  repeat split.
  - apply fromordinal_valid. lia.
  - apply toordinal_fromordinal. lia.
Qed.

Lemma add_days_overflow d k :
  ~ (1 <= toordinal d + k <= MAXORDINAL) ->
  add_days d k = Raise OverflowError.
Proof.
  intros Hr. unfold add_days.
  destruct (Z.ltb_spec 0 (toordinal d + k)),
    (Z.leb_spec (toordinal d + k) MAXORDINAL); simpl; try reflexivity. lia.
Qed.

(** ** The weekly ranges *)

Lemma add_days_inv d k d' :
  valid_date d = true -> add_days d k = Ok d' ->
  valid_date d' = true /\ toordinal d' = toordinal d + k
  /\ 1 <= toordinal d + k <= MAXORDINAL.
Proof.
  intros Hv H. unfold add_days in H.
  destruct (Z.ltb_spec 0 (toordinal d + k)); simpl in H; [|discriminate].
  destruct (Z.leb_spec (toordinal d + k) MAXORDINAL); [|discriminate].
  injection H as <-. repeat split; try lia.
  - apply fromordinal_valid. lia.
  - apply toordinal_fromordinal. lia.
Qed.

Lemma weekday_bounds d : 0 <= weekday d < 7.
Proof. unfold weekday. apply Z.mod_pos_bound. lia. Qed.

(** The offset [get_sunday] subtracts. *)
Lemma get_sunday_offset d :
  get_sunday d = add_days d (- ((weekday d + 1) mod 7)).
Proof.
  unfold get_sunday. cbv zeta. pose proof (weekday_bounds d) as Hw.
  destruct (Z.eqb_spec (weekday d + 1) 7) as [He|Hne].
  - rewrite He. reflexivity.
  - rewrite Z.mod_small by lia. reflexivity.
Qed.

Lemma sunday_offset_ordinal d :
  (weekday d + 1) mod 7 = toordinal d mod 7.
Proof. unfold weekday. Z.div_mod_to_equations. lia. Qed.

Lemma weekday_sunday d : weekday d = 6 <-> toordinal d mod 7 = 0.
Proof. unfold weekday. Z.div_mod_to_equations. lia. Qed.

Lemma get_sunday_inv d s :
  valid_date d = true -> get_sunday d = Ok s ->
  valid_date s = true /\ weekday s = 6
  /\ toordinal s = toordinal d - toordinal d mod 7.
Proof.
  intros Hv H. rewrite get_sunday_offset, sunday_offset_ordinal in H.
  apply add_days_inv in H as (Hs & Ho & _); [|assumption].
  repeat split; [assumption| |lia].
  apply weekday_sunday. rewrite Ho. Z.div_mod_to_equations. lia.
Qed.

Lemma get_sunday_ok d :
  valid_date d = true -> 7 <= toordinal d ->
  exists s, get_sunday d = Ok s.
Proof.
  intros Hv Ho. rewrite get_sunday_offset, sunday_offset_ordinal.
  pose proof (toordinal_bounds d Hv).
  destruct (add_days_ok d (- (toordinal d mod 7)) Hv) as (s & Hs & _).
  - Z.div_mod_to_equations. lia.
  - exists s. exact Hs.
Qed.

Lemma get_sunday_overflow d :
  valid_date d = true -> toordinal d < 7 ->
  get_sunday d = Raise OverflowError.
Proof.
  intros Hv Ho. rewrite get_sunday_offset, sunday_offset_ordinal.
  pose proof (toordinal_bounds d Hv).
  apply add_days_overflow. rewrite Z.mod_small by lia. lia.
Qed.

Lemma date_leb_false_ltb a b :
  date_leb a b = false <-> date_ltb b a = true.
Proof.
  unfold date_leb, date_ltb, date_eqb.
  destruct (Z.ltb_spec (year a) (year b)), (Z.eqb_spec (year a) (year b)),
    (Z.ltb_spec (month a) (month b)), (Z.eqb_spec (month a) (month b)),
    (Z.ltb_spec (day a) (day b)), (Z.eqb_spec (day a) (day b)),
    (Z.ltb_spec (year b) (year a)), (Z.eqb_spec (year b) (year a)),
    (Z.ltb_spec (month b) (month a)), (Z.eqb_spec (month b) (month a)),
    (Z.ltb_spec (day b) (day a)); simpl; split; intros; try lia;
    try reflexivity; try discriminate.
Qed.

(** The latest ordinal of a Sunday whose week, and the Sunday after it, are
    dates: 9999-12-19. *)
Lemma sunday_fits o :
  o mod 7 = 0 -> o <= 3652053 -> o + 7 <= MAXORDINAL.
Proof. unfold MAXORDINAL. intros. Z.div_mod_to_equations. lia. Qed.

(** The loop with enough fuel runs to its end and appends the windows of
    [weeks_from]. *)
Lemma weekly_loop_weeks end_date :
  valid_date end_date = true -> toordinal end_date <= 3652053 ->
  forall fuel current ranges,
    valid_date current = true -> toordinal current mod 7 = 0 ->
    (Z.to_nat (toordinal end_date - toordinal current + 1) <= fuel)%nat ->
    exists ws,
      weekly_loop fuel current end_date ranges = Some (Ok (ranges ++ ws))
      /\ weeks_from end_date current ws.
Proof.
  intros He Hmax. induction fuel as [|fuel IH]; intros current ranges Hc Hs Hf.
  - exists []. destruct (date_leb current end_date) eqn:Hle.
    + apply (date_leb_toordinal _ _ Hc He) in Hle. lia.
    + simpl. rewrite Hle, app_nil_r. split; [reflexivity|].
      constructor. exact Hle.
  - destruct (date_leb current end_date) eqn:Hle.
    + pose proof Hle as Hle'.
      apply (date_leb_toordinal _ _ Hc He) in Hle'.
      pose proof (toordinal_bounds current Hc) as Hb.
      pose proof (sunday_fits _ Hs ltac:(lia)) as Hfit.
      destruct (add_days_ok current 6 Hc ltac:(lia)) as (we & Hwe & _ & _).
      destruct (add_days_ok current 7 Hc ltac:(lia)) as (nx & Hnx & Hnv & Hno).
      destruct (IH nx
                  (ranges ++ [mkrange (strftime_yymmdd current)
                                (strftime_yymmdd we) current we]) Hnv)
        as (ws & Hws & Hweeks).
      * rewrite Hno. Z.div_mod_to_equations. lia.
      * lia.
      * eexists. simpl. rewrite Hle, Hwe, Hnx, Hws, <- app_assoc. simpl.
        split; [reflexivity|]. econstructor; eassumption.
    + exists []. simpl. rewrite Hle, app_nil_r. split; [reflexivity|].
      constructor. exact Hle.
Qed.

Lemma weeks_from_head end_date current ws :
  weeks_from end_date current ws ->
  match ws with
  | [] => date_leb current end_date = false
  | w :: _ => week_start w = current
  end.
Proof. intros H. destruct H; [assumption|reflexivity]. Qed.

Lemma weeks_from_windows end_date current ws :
  valid_date end_date = true ->
  weeks_from end_date current ws ->
  valid_date current = true -> toordinal current mod 7 = 0 ->
  Forall (window_ok end_date) ws /\ consecutive ws.
Proof.
  intros He H. induction H as [current Hle|current we next ws Hle Hwe Hnx H IH];
    intros Hc Hs.
  - split; [constructor|exact I].
  - destruct (add_days_inv _ _ _ Hc Hwe) as (Hwv & Hwo & _).
    destruct (add_days_inv _ _ _ Hc Hnx) as (Hnv & Hno & Hnr).
    destruct IH as [IHw IHc]; [assumption| |].
    { rewrite Hno. Z.div_mod_to_equations. lia. }
    split.
    + constructor; [|assumption].
      repeat split; simpl; try assumption. apply weekday_sunday, Hs.
    + pose proof (weeks_from_head _ _ _ H) as Hhd.
      destruct ws as [|w2 ws']; [exact I|]. simpl in Hhd. subst next.
      cbn [consecutive week_start week_end].
      repeat split; try assumption.
      * destruct (add_days_ok we 1 Hwv ltac:(lia)) as (x & Hx & Hxv & Hxo).
        rewrite Hx. f_equal.
        rewrite <- (fromordinal_toordinal x Hxv),
          <- (fromordinal_toordinal _ Hnv). f_equal. lia.
      * apply date_ltb_toordinal; try assumption. lia.
Qed.

Lemma weeks_from_last end_date current ws :
  valid_date end_date = true ->
  weeks_from end_date current ws ->
  valid_date current = true ->
  ws <> [] ->
  exists init last,
    ws = init ++ [last] /\ date_leb end_date (week_end last) = true.
Proof.
  intros He H. induction H as [current Hle|current we next ws Hle Hwe Hnx H IH];
    intros Hc Hne; [congruence|].
  destruct (add_days_inv _ _ _ Hc Hwe) as (Hwv & Hwo & _).
  destruct (add_days_inv _ _ _ Hc Hnx) as (Hnv & Hno & _).
  destruct ws as [|w2 ws'].
  - exists [], (mkrange (strftime_yymmdd current) (strftime_yymmdd we)
                  current we).
    split; [reflexivity|]. simpl.
    inversion H as [c Hgt|]; subst.
    apply date_leb_false_ltb in Hgt.
    apply (date_ltb_toordinal _ _ He Hnv) in Hgt.
    apply date_leb_toordinal; try assumption. lia.
  - destruct (IH Hnv ltac:(discriminate)) as (init & last & Heq & Hl).
    exists (mkrange (strftime_yymmdd current) (strftime_yymmdd we)
              current we :: init), last.
    rewrite Heq. split; [reflexivity|assumption].
Qed.

Lemma toordinal_FIRST_SUNDAY : toordinal FIRST_SUNDAY = 7.
Proof. reflexivity. Qed.

Lemma toordinal_LAST_SATURDAY : toordinal LAST_SATURDAY = 3652053.
Proof. reflexivity. Qed.

Lemma valid_FIRST_SUNDAY : valid_date FIRST_SUNDAY = true.
Proof. reflexivity. Qed.

Lemma valid_LAST_SATURDAY : valid_date LAST_SATURDAY = true.
Proof. reflexivity. Qed.

(** [generate_weekly_ranges] on a range of dates inside the calendar. *)
Lemma generate_weekly_ranges_weeks start_date end_date :
  valid_date start_date = true -> valid_date end_date = true ->
  date_leb FIRST_SUNDAY start_date = true ->
  date_leb end_date LAST_SATURDAY = true ->
  exists first ws,
    get_sunday start_date = Ok first
    /\ valid_date first = true
    /\ toordinal first = toordinal start_date - toordinal start_date mod 7
    /\ generate_weekly_ranges start_date end_date = Some (Ok ws)
    /\ weeks_from end_date first ws.
Proof.
  intros Hs He Hlo Hhi.
  apply (date_leb_toordinal _ _ valid_FIRST_SUNDAY Hs) in Hlo.
  apply (date_leb_toordinal _ _ He valid_LAST_SATURDAY) in Hhi.
  rewrite toordinal_FIRST_SUNDAY in Hlo.
  rewrite toordinal_LAST_SATURDAY in Hhi.
  destruct (get_sunday_ok _ Hs Hlo) as (first & Hfirst).
  destruct (get_sunday_inv _ _ Hs Hfirst) as (Hfv & Hwd & Hfo).
  destruct (weekly_loop_weeks end_date He Hhi
              (weekly_fuel first end_date) first [] Hfv)
    as (ws & Hws & Hweeks).
  - apply weekday_sunday, Hwd.
  - unfold weekly_fuel. lia.
  - exists first, ws. unfold generate_weekly_ranges. rewrite Hfirst.
    repeat split; assumption.
Qed.


(** *** The week of one day *)

(** C5, as amended: for every date D from 0001-01-07 to 9999-12-25,
    [generate_weekly_ranges D D] is one window; it starts on or before D
    and ends on or after D, its start is a Sunday, and that start is D
    minus [(D.weekday() + 1) mod 7] days, with Monday = 0 ... Sunday = 6. *)
Theorem one_week_of_a_day (D : date) :
  valid_date D = true ->
  date_leb FIRST_SUNDAY D = true -> date_leb D LAST_SATURDAY = true ->
  exists w,
    generate_weekly_ranges D D = Some (Ok [w])
    /\ date_leb (week_start w) D = true /\ date_leb D (week_end w) = true
    /\ weekday (week_start w) = 6
    /\ add_days D (- ((weekday D + 1) mod 7)) = Ok (week_start w).
Proof.
  intros Hv Hlo Hhi.
  destruct (generate_weekly_ranges_weeks _ _ Hv Hv Hlo Hhi)
    as (first & ws & Hfirst & Hfv & Hfo & Hgen & Hweeks).
  pose proof (Z.mod_pos_bound (toordinal D) 7 ltac:(lia)) as Hmod.
  inversion Hweeks as [c Hgt|c we next ws' Hle Hwe Hnx Hrest]; subst.
  - apply date_leb_false_ltb in Hgt.
    apply (date_ltb_toordinal _ _ Hv Hfv) in Hgt. lia.
  - destruct (add_days_inv _ _ _ Hfv Hwe) as (Hwv & Hwo & _).
    destruct (add_days_inv _ _ _ Hfv Hnx) as (Hnv & Hno & _).
    inversion Hrest as [c Hgt|c we' next' ws'' Hle'];  subst.
    + eexists. split; [exact Hgen|]. simpl.
      repeat split.
      * exact Hle.
      * apply date_leb_toordinal; try assumption. lia.
      * apply weekday_sunday. rewrite Hfo. Z.div_mod_to_equations. lia.
      * rewrite <- get_sunday_offset. exact Hfirst.
    + apply (date_leb_toordinal _ _ Hnv Hv) in Hle'. lia.
Qed.

(** Wednesday 2023-01-04 lies in the week of Sunday 2023-01-01. *)
Lemma one_week_of_a_day_witness :
  exists w,
    generate_weekly_ranges (mkdate 2023 1 4) (mkdate 2023 1 4) = Some (Ok [w])
    /\ date_leb (week_start w) (mkdate 2023 1 4) = true
    /\ date_leb (mkdate 2023 1 4) (week_end w) = true
    /\ weekday (week_start w) = 6
    /\ add_days (mkdate 2023 1 4) (- ((weekday (mkdate 2023 1 4) + 1) mod 7))
       = Ok (week_start w).
Proof.
  apply (one_week_of_a_day (mkdate 2023 1 4)); reflexivity.
Defined.

(** C5 as stated fails on the first days of the calendar: 0001-01-01 is a
    Monday, the Sunday before it is not a date, and [get_sunday] raises. *)
Lemma one_week_of_a_day_counterexample :
  valid_date (mkdate 1 1 1) = true
  /\ weekday (mkdate 1 1 1) = 0
  /\ get_sunday (mkdate 1 1 1) = Raise OverflowError
  /\ generate_weekly_ranges (mkdate 1 1 1) (mkdate 1 1 1)
     = Some (Raise OverflowError).
Proof. repeat split. Qed.

(** *** The weeks of a range *)

(** C6, as amended: for every pair of dates with
    0001-01-07 <= start_date <= end_date <= 9999-12-25 the sequence is not
    empty and starts at the Sunday of the week of start_date; every window
    starts on a Sunday not after end_date and ends six days after its
    start, and carries the two YYMMDD texts of its dates; every next window
    starts seven days after the start and one day after the end of the
    window before it; and the last window ends on or after end_date. *)
Theorem weekly_ranges_contiguous (start_date end_date : date) :
  valid_date start_date = true -> valid_date end_date = true ->
  date_leb start_date end_date = true ->
  date_leb FIRST_SUNDAY start_date = true ->
  date_leb end_date LAST_SATURDAY = true ->
  exists first init last,
    generate_weekly_ranges start_date end_date = Some (Ok (init ++ [last]))
    /\ get_sunday start_date = Ok first
    /\ hd_error (map week_start (init ++ [last])) = Some first
    /\ Forall (window_ok end_date) (init ++ [last])
    /\ consecutive (init ++ [last])
    /\ date_leb end_date (week_end last) = true.
Proof.
  intros Hs He Hle Hlo Hhi.
  destruct (generate_weekly_ranges_weeks _ _ Hs He Hlo Hhi)
    as (first & ws & Hfirst & Hfv & Hfo & Hgen & Hweeks).
  pose proof (weeks_from_head _ _ _ Hweeks) as Hhd.
  assert (Hne : ws <> []).
  { intros ->. apply date_leb_false_ltb in Hhd.
    apply (date_ltb_toordinal _ _ He Hfv) in Hhd.
    apply (date_leb_toordinal _ _ Hs He) in Hle.
    pose proof (Z.mod_pos_bound (toordinal start_date) 7 ltac:(lia)). lia. }
  destruct (weeks_from_last _ _ _ He Hweeks Hfv Hne)
    as (init & last & -> & Hlast).
  destruct (weeks_from_windows _ _ _ He Hweeks Hfv) as [Hall Hcons].
  { rewrite Hfo. Z.div_mod_to_equations. lia. }
  exists first, init, last. repeat split; try assumption.
  destruct (init ++ [last]) as [|w ws'] eqn:Heq; [congruence|].
  simpl in *. now subst.
Qed.

(** From Sunday 2023-01-01 to Friday 2023-01-20: three windows, the last
    one ending on Saturday 2023-01-21. *)
Lemma weekly_ranges_contiguous_witness :
  exists first init last,
    generate_weekly_ranges (mkdate 2023 1 1) (mkdate 2023 1 20)
    = Some (Ok (init ++ [last]))
    /\ get_sunday (mkdate 2023 1 1) = Ok first
    /\ hd_error (map week_start (init ++ [last])) = Some first
    /\ Forall (window_ok (mkdate 2023 1 20)) (init ++ [last])
    /\ consecutive (init ++ [last])
    /\ date_leb (mkdate 2023 1 20) (week_end last) = true.
Proof.
  apply (weekly_ranges_contiguous (mkdate 2023 1 1) (mkdate 2023 1 20));
    reflexivity.
Defined.

(** C6 as stated fails on the last days of the calendar: 9999-12-31 is a
    Friday, its week ends on a day that is not a date, and the loop raises
    instead of returning the window that contains end_date. *)
Lemma weekly_ranges_contiguous_counterexample :
  valid_date (mkdate 9999 12 30) = true
  /\ valid_date (mkdate 9999 12 31) = true
  /\ date_leb (mkdate 9999 12 30) (mkdate 9999 12 31) = true
  /\ get_sunday (mkdate 9999 12 30) = Ok (mkdate 9999 12 26)
  /\ add_days (mkdate 9999 12 26) 6 = Raise OverflowError
  /\ generate_weekly_ranges (mkdate 9999 12 30) (mkdate 9999 12 31)
     = Some (Raise OverflowError).
Proof. repeat split. Qed.

(** *** A start after the end *)

(** C7, as amended: for every pair of dates with start_date > end_date
    for which [get_sunday start_date] is a date (start_date on or after
    0001-01-07): the sequence is empty when end_date is before that Sunday;
    when end_date is that Sunday or a later day of the week, the sequence
    is the one window of that week for a start_date not after 9999-12-25,
    and the call raises [OverflowError] for a start_date after 9999-12-25,
    whose week ends after the last date. *)
Theorem start_after_end (start_date end_date first : date) :
  valid_date start_date = true -> valid_date end_date = true ->
  date_ltb end_date start_date = true ->
  get_sunday start_date = Ok first ->
  (date_ltb end_date first = true ->
   generate_weekly_ranges start_date end_date = Some (Ok []))
  /\ (date_leb first end_date = true ->
      date_leb start_date LAST_SATURDAY = true ->
      exists week_end,
        add_days first 6 = Ok week_end
        /\ generate_weekly_ranges start_date end_date
           = Some (Ok [mkrange (strftime_yymmdd first)
                         (strftime_yymmdd week_end) first week_end]))
  /\ (date_leb first end_date = true ->
      date_ltb LAST_SATURDAY start_date = true ->
      generate_weekly_ranges start_date end_date
      = Some (Raise OverflowError)).
Proof.
  intros Hs He Hgt Hfirst.
  destruct (get_sunday_inv _ _ Hs Hfirst) as (Hfv & _ & Hfo).
  pose proof (Z.mod_pos_bound (toordinal start_date) 7 ltac:(lia)) as Hmod.
  pose proof (toordinal_bounds _ Hfv) as Hfb.
  unfold generate_weekly_ranges. rewrite Hfirst. split; [|split].
  - intros Hlt. apply date_leb_false_ltb in Hlt.
    destruct (weekly_fuel first end_date); simpl; rewrite Hlt; reflexivity.
  - intros Hle Hin.
    pose proof Hle as Hle'.
    apply (date_leb_toordinal _ _ Hfv He) in Hle'.
    apply (date_ltb_toordinal _ _ He Hs) in Hgt.
    apply (date_leb_toordinal _ _ Hs valid_LAST_SATURDAY) in Hin.
    rewrite toordinal_LAST_SATURDAY in Hin.
    assert (H7 : toordinal first + 7 <= MAXORDINAL)
      by (rewrite Hfo; unfold MAXORDINAL; Z.div_mod_to_equations; lia).
    destruct (add_days_ok first 6 Hfv ltac:(lia)) as (week_end & Hwe & _).
    destruct (add_days_ok first 7 Hfv ltac:(lia)) as (next & Hnx & Hnv & Hno).
    exists week_end. split; [exact Hwe|].
    assert (Hstop : date_leb next end_date = false).
    { apply date_leb_false_ltb, date_ltb_toordinal; try assumption. lia. }
    unfold weekly_fuel.
    destruct (Z.to_nat (toordinal end_date - toordinal first + 1))
      as [|fuel] eqn:Hfuel; [lia|].
    simpl. rewrite Hle, Hwe, Hnx.
    destruct fuel; simpl; rewrite Hstop; reflexivity.
  - intros Hle Hlate.
    pose proof Hle as Hle'.
    apply (date_leb_toordinal _ _ Hfv He) in Hle'.
    apply (date_ltb_toordinal _ _ valid_LAST_SATURDAY Hs) in Hlate.
    rewrite toordinal_LAST_SATURDAY in Hlate.
    assert (H6 : add_days first 6 = Raise OverflowError).
    { apply add_days_overflow. rewrite Hfo. unfold MAXORDINAL.
      Z.div_mod_to_equations. lia. }
    unfold weekly_fuel.
    destruct (Z.to_nat (toordinal end_date - toordinal first + 1))
      as [|fuel] eqn:Hfuel; [lia|].
    simpl. rewrite Hle, H6. reflexivity.
Qed.

(** Start on Wednesday 2023-01-04, end on Saturday 2022-12-31, the day
    before the Sunday of the week of the start: no window. *)
Lemma start_after_end_witness :
  generate_weekly_ranges (mkdate 2023 1 4) (mkdate 2022 12 31) = Some (Ok []).
Proof.
  apply (proj1 (start_after_end (mkdate 2023 1 4) (mkdate 2022 12 31)
                  (mkdate 2023 1 1) eq_refl eq_refl eq_refl eq_refl)).
  reflexivity.
Defined.

(** C7 as stated fails inside a week: start on Wednesday 2023-01-04, end
    on Monday 2023-01-02. The start is after the end, and the sequence is
    the window of Sunday 2023-01-01. *)
Lemma start_after_end_counterexample :
  date_ltb (mkdate 2023 1 2) (mkdate 2023 1 4) = true
  /\ generate_weekly_ranges (mkdate 2023 1 4) (mkdate 2023 1 2)
     = Some (Ok [mkrange "230101" "230107" (mkdate 2023 1 1) (mkdate 2023 1 7)]).
Proof. split; reflexivity. Qed.

(** At the end of the calendar the same pair of days raises: start on
    Thursday 9999-12-30, end on Monday 9999-12-27, in the week of Sunday
    9999-12-26 whose Saturday is not a date. *)
Example start_after_end_overflow :
  date_ltb (mkdate 9999 12 27) (mkdate 9999 12 30) = true
  /\ get_sunday (mkdate 9999 12 30) = Ok (mkdate 9999 12 26)
  /\ generate_weekly_ranges (mkdate 9999 12 30) (mkdate 9999 12 27)
     = Some (Raise OverflowError).
Proof. repeat split. Qed.

(** ** The identifier of a window *)

Lemma two_digits_checked :
  all_from 100 0 (fun n => int_of_digits 0 (two_digits n) =? n) = true.
Proof. vm_compute. reflexivity. Qed.

Lemma int_of_two_digits n :
  0 <= n < 100 -> int_of_digits 0 (two_digits n) = n.
Proof.
  intros Hn. apply Z.eqb_eq.
  apply (all_from_spec _ _ _ two_digits_checked). simpl. lia.
Qed.

Lemma two_digits_inj a b :
  0 <= a < 100 -> 0 <= b < 100 -> two_digits a = two_digits b -> a = b.
Proof.
  intros Ha Hb H. rewrite <- (int_of_two_digits a Ha), <- (int_of_two_digits b Hb).
  now rewrite H.
Qed.

Lemma date_ltb_spec a b :
  date_ltb a b = true <->
  (year a < year b
   \/ (year a = year b
       /\ (month a < month b \/ (month a = month b /\ day a < day b)))).
Proof.
  unfold date_ltb.
  rewrite !orb_true_iff, !andb_true_iff, !orb_true_iff, !andb_true_iff,
    !Z.ltb_lt, !Z.eqb_eq. reflexivity.
Qed.

Lemma date_leb_spec a b :
  date_leb a b = true <->
  (year a < year b
   \/ (year a = year b
       /\ (month a < month b \/ (month a = month b /\ day a <= day b)))).
Proof.
  unfold date_leb, date_eqb.
  rewrite orb_true_iff, date_ltb_spec, !andb_true_iff, !Z.eqb_eq. lia.
Qed.

Lemma days_in_month_le y m : days_in_month y m <= 31.
Proof.
  unfold days_in_month.
  destruct ((m =? 2) && is_leap y); [lia|].
  unfold DAYS_IN_MONTH.
  repeat match goal with
         | |- context [match ?x with _ => _ end] => destruct x
         end; lia.
Qed.

(** The text of a date gives back the year modulo 100, the month and the
    day. *)
Lemma strftime_yymmdd_inj a b :
  valid_date a = true -> valid_date b = true ->
  strftime_yymmdd a = strftime_yymmdd b ->
  year a mod 100 = year b mod 100 /\ month a = month b /\ day a = day b.
Proof.
  intros Ha Hb H.
  apply valid_date_spec in Ha as (_ & Hma & Hda), Hb as (_ & Hmb & Hdb).
  pose proof (days_in_month_le (year a) (month a)).
  pose proof (days_in_month_le (year b) (month b)).
  pose proof (Z.mod_pos_bound (year a) 100 ltac:(lia)).
  pose proof (Z.mod_pos_bound (year b) 100 ltac:(lia)).
  unfold strftime_yymmdd in H.
  pose proof (f_equal (substring 0 2) H) as Hy.
  pose proof (f_equal (substring 2 2) H) as Hm.
  pose proof (f_equal (substring 4 2) H) as Hd.
  cbn in Hy, Hm, Hd.
  repeat split; apply two_digits_inj; try lia; assumption.
Qed.

Lemma same_text_same_date S a b :
  valid_date a = true -> valid_date b = true ->
  in_century S a -> in_century S b ->
  strftime_yymmdd a = strftime_yymmdd b -> a = b.
Proof.
  intros Ha Hb [Hal Hah] [Hbl Hbh] H.
  destruct (strftime_yymmdd_inj a b Ha Hb H) as (Hy & Hm & Hd).
  apply date_leb_spec in Hal, Hbl. apply date_ltb_spec in Hah, Hbh.
  simpl in Hah, Hbh.
  assert (Hyy : year a = year b) by (Z.div_mod_to_equations; lia).
  destruct a, b; simpl in *. congruence.
Qed.

(** C8: the windows (a start date and the date six days later) whose
    start dates lie in one span of a hundred years, from any date [S] to
    the day before the same day a hundred years later, have distinct
    identifiers: equal pairs of YYMMDD texts come from equal windows. *)
Theorem to_identifier_injective (S : date) (w1 w2 : date * date) :
  valid_date (fst w1) = true -> valid_date (fst w2) = true ->
  add_days (fst w1) 6 = Ok (snd w1) -> add_days (fst w2) 6 = Ok (snd w2) ->
  in_century S (fst w1) -> in_century S (fst w2) ->
  to_identifier w1 = to_identifier w2 -> w1 = w2.
Proof.
  intros Hv1 Hv2 He1 He2 Hc1 Hc2 H.
  pose proof (f_equal fst H) as Hs. unfold to_identifier in Hs.
  cbn [fst] in Hs.
  pose proof (same_text_same_date S _ _ Hv1 Hv2 Hc1 Hc2 Hs) as Heq.
  destruct w1 as [s1 e1], w2 as [s2 e2]. simpl in *. subst s2.
  rewrite He1 in He2. injection He2 as ->. reflexivity.
Qed.

Lemma to_identifier_injective_witness :
  (mkdate 2023 1 1, mkdate 2023 1 7) = (mkdate 2023 1 1, mkdate 2023 1 7).
Proof.
  apply (to_identifier_injective (mkdate 2000 1 1)
           (mkdate 2023 1 1, mkdate 2023 1 7)
           (mkdate 2023 1 1, mkdate 2023 1 7));
    try reflexivity; split; reflexivity.
Defined.

(** A hundred years apart the identifiers do collide. *)
Example to_identifier_century_apart :
  to_identifier (mkdate 1923 1 7, mkdate 1923 1 13)
  = to_identifier (mkdate 2023 1 7, mkdate 2023 1 13)
  /\ add_days (mkdate 1923 1 7) 6 = Ok (mkdate 1923 1 13)
  /\ add_days (mkdate 2023 1 7) 6 = Ok (mkdate 2023 1 13).
Proof. repeat split. Qed.

Example to_identifier_example :
  to_identifier (mkdate 2024 1 7, mkdate 2024 1 13) = ("240107", "240113")%string
  /\ filename "240107" "240113" = "240107-240113.csv"%string.
Proof. split; reflexivity. Qed.

(** ** The dates of a file name *)

Local Open Scope string_scope.

Lemma findall_d6_short s : (String.length s < 6)%nat -> findall_d6 s = [].
Proof.
  destruct s as [|c1 [|c2 [|c3 [|c4 [|c5 [|c6 s]]]]]]; simpl; intros H;
    try reflexivity; lia.
Qed.

(** A position that does not start six digits is passed over. *)
Lemma findall_d6_skip c s :
  six_digits (String c s) = false -> findall_d6 (String c s) = findall_d6 s.
Proof.
  destruct s as [|c2 [|c3 [|c4 [|c5 [|c6 s]]]]]; try reflexivity.
  cbn [six_digits findall_d6]. intros ->. reflexivity.
Qed.

Lemma six_digits_nondigit c s : is_digit c = false -> six_digits (String c s) = false.
Proof.
  intros H. destruct s as [|c2 [|c3 [|c4 [|c5 [|c6 s]]]]]; try reflexivity.
  cbn [six_digits]. rewrite H. reflexivity.
Qed.

(** A run of fewer than six digits holds no match. *)
Lemma findall_d6_short_run run rest :
  all_digits run = true -> (String.length run < 6)%nat ->
  starts_nondigit rest ->
  findall_d6 (run ++ rest) = findall_d6 rest.
Proof.
  induction run as [|c run IH]; intros Hd Hlen Hrest; [reflexivity|].
  simpl in Hd. apply andb_true_iff in Hd as [Hc Hd]. simpl in Hlen.
  cbn [append]. rewrite findall_d6_skip.
  - apply IH; [assumption|lia|assumption].
  - clear IH.
    destruct run as [|c2 [|c3 [|c4 [|c5 [|c6 run]]]]];
      [| | | | |simpl in Hlen; lia];
      destruct rest as [|d0 [|d1 [|d2 [|d3 [|d4 rest]]]]];
      cbn [append six_digits] in *; try reflexivity;
      rewrite Hrest, ?andb_false_r; reflexivity.
Qed.

(** The scan of a run of digits followed by a text that starts with no
    digit. *)
Lemma findall_d6_run n : forall run rest,
  (String.length run <= n)%nat ->
  all_digits run = true -> starts_nondigit rest ->
  findall_d6 (run ++ rest) = (blocks_of_six run ++ findall_d6 rest)%list.
Proof.
  induction n as [|n IH]; intros run rest Hlen Hd Hrest.
  - destruct run; [reflexivity|simpl in Hlen; lia].
  - destruct run as [|c1 [|c2 [|c3 [|c4 [|c5 [|c6 run]]]]]];
      try (apply findall_d6_short_run; [assumption|simpl; lia|assumption]).
    cbn [all_digits] in Hd.
    repeat (apply andb_true_iff in Hd as [? Hd]).
    cbn [append blocks_of_six findall_d6 app].
    repeat match goal with H : is_digit _ = true |- _ => rewrite H; clear H end.
    cbn [andb]. f_equal. apply IH; [simpl in Hlen; lia|assumption|assumption].
Qed.

Lemma length_app_string (a b : string) :
  String.length (a ++ b) = (String.length a + String.length b)%nat.
Proof. induction a as [|c a IH]; simpl; [reflexivity|now rewrite IH]. Qed.

Lemma span_digits_spec s :
  let (run, rest) := span_digits s in
  s = run ++ rest /\ all_digits run = true /\ starts_nondigit rest.
Proof.
  induction s as [|c s IH]; [repeat split|].
  simpl. destruct (is_digit c) eqn:Hc.
  - destruct (span_digits s) as [run rest]. destruct IH as (-> & Hd & Hr).
    simpl. rewrite Hc. repeat split; assumption.
  - simpl. repeat split. exact Hc.
Qed.

Lemma digit_runs_run run : forall rest,
  run <> EmptyString -> all_digits run = true -> starts_nondigit rest ->
  digit_runs (run ++ rest) = run :: digit_runs rest.
Proof.
  induction run as [|c run IH]; intros rest Hne Hd Hrest; [congruence|].
  simpl in Hd. apply andb_true_iff in Hd as [Hc Hd].
  cbn [append digit_runs]. rewrite Hc.
  destruct run as [|c2 run].
  - cbn [append]. destruct rest as [|d0 rest]; [reflexivity|].
    simpl in Hrest. rewrite Hrest. reflexivity.
  - rewrite (IH rest ltac:(discriminate) Hd Hrest).
    cbn [append]. simpl in Hd. apply andb_true_iff in Hd as [-> _].
    reflexivity.
Qed.

(** What [re.findall] returns: every maximal run of digits, cut into blocks
    of six. *)
Lemma findall_d6_blocks s :
  findall_d6 s = flat_map blocks_of_six (digit_runs s).
Proof.
  remember (String.length s) as n eqn:Hn.
  revert s Hn. induction n as [n IH] using lt_wf_ind. intros s Hn.
  pose proof (span_digits_spec s) as Hspan.
  destruct (span_digits s) as [run rest]. destruct Hspan as (Hs & Hd & Hrest).
  destruct run as [|c run].
  - simpl in Hs. subst rest. destruct s as [|c s]; [reflexivity|].
    simpl in Hrest.
    rewrite findall_d6_skip by (apply six_digits_nondigit; assumption).
    cbn [digit_runs]. rewrite Hrest.
    apply (IH (String.length s)); [subst n; simpl; lia|reflexivity].
  - rewrite Hs.
    rewrite (findall_d6_run _ _ rest (le_n _) Hd Hrest).
    rewrite digit_runs_run by (assumption || discriminate).
    cbn [flat_map]. f_equal.
    apply (IH (String.length rest)); [|reflexivity].
    subst n s. rewrite length_app_string. simpl. lia.
Qed.

Lemma blocks_of_six_le run :
  (String.length run <= 6)%nat ->
  blocks_of_six run = if (String.length run =? 6)%nat then [run] else [].
Proof.
  destruct run as [|c1 [|c2 [|c3 [|c4 [|c5 [|c6 [|c7 run]]]]]]]; simpl;
    intros H; try reflexivity; lia.
Qed.

(** Where no run of digits is longer than six, the matches are the runs of
    exactly six digits. *)
Lemma findall_d6_runs_of_six s :
  Forall (fun run => (String.length run <= 6)%nat) (digit_runs s) ->
  findall_d6 s = runs_of_six s.
Proof.
  rewrite findall_d6_blocks. unfold runs_of_six.
  induction (digit_runs s) as [|run runs IH]; intros H; [reflexivity|].
  inversion H as [|? ? Hrun Hruns]; subst.
  cbn [flat_map filter]. rewrite (blocks_of_six_le run Hrun), (IH Hruns).
  destruct (String.length run =? 6)%nat; reflexivity.
Qed.

Lemma findall_d6_six_digits s :
  Forall (fun m => String.length m = 6%nat /\ all_digits m = true)
    (findall_d6 s).
Proof.
  remember (String.length s) as n eqn:Hn.
  revert s Hn. induction n as [n IH] using lt_wf_ind. intros s Hn.
  destruct s as [|c1 s1]; [constructor|].
  destruct (six_digits (String c1 s1)) eqn:H6.
  - destruct s1 as [|c2 [|c3 [|c4 [|c5 [|c6 rest]]]]]; try discriminate.
    cbn [six_digits] in H6. cbn [findall_d6]. rewrite H6.
    constructor.
    + split; [reflexivity|]. cbn [all_digits].
      repeat (apply andb_true_iff in H6 as [H6 ->]). rewrite H6. reflexivity.
    + apply (IH (String.length rest)); [subst n; simpl; lia|reflexivity].
  - rewrite findall_d6_skip by assumption.
    apply (IH (String.length s1)); [subst n; simpl; lia|reflexivity].
Qed.

(** The date read from a match: the century 20, then two digits of year,
    two of month and two of day. *)
Lemma to_datetime_Ymd_block m d :
  String.length m = 6%nat ->
  to_datetime_Ymd ("20" ++ m) = Ok d ->
  d = mkdate (2000 + int_of_digits 0 (substring 0 2 m))
             (int_of_digits 0 (substring 2 2 m))
             (int_of_digits 0 (substring 4 2 m))
  /\ valid_date d = true.
Proof.
  destruct m as [|c1 [|c2 [|c3 [|c4 [|c5 [|c6 [|c7 m]]]]]]]; try discriminate.
  intros _. unfold to_datetime_Ymd.
  destruct ((String.length ("20" ++ _) =? 8)%nat && all_digits _);
    [|discriminate].
  match goal with |- context [valid_date ?x] => set (dd := x) end.
  destruct (valid_date dd) eqn:Hv; [|discriminate].
  intros H. injection H as <-. split; [|exact Hv].
  subst dd. cbn [append substring int_of_digits]. f_equal.
  unfold digit_value. change (code "2") with 50. change (code "0") with 48.
  lia.
Qed.

Lemma to_datetime_Ymd_error s e : to_datetime_Ymd s = Raise e -> e = ValueError.
Proof.
  unfold to_datetime_Ymd.
  destruct (_ && _); [|congruence].
  destruct (valid_date _); congruence.
Qed.

(** C2, as amended: the scan of the file name collects, from left to
    right, blocks of six consecutive digits that do not overlap: every
    maximal run of digits gives one block for each six digits it holds
    (the runs of exactly six digits, when no run is longer). With two
    blocks or more, the first and the second, each prefixed with 20 and
    read as YYYYMMDD, are the start and the end date when both are dates;
    with fewer than two blocks both dates are the current date. The file
    name 240107-240113.csv gives 2024-01-07 and 2024-01-13. *)
Theorem date_extraction (today : date) (file_name : string) :
  findall_d6 file_name = flat_map blocks_of_six (digit_runs file_name)
  /\ (Forall (fun run => (String.length run <= 6)%nat) (digit_runs file_name) ->
      findall_d6 file_name = runs_of_six file_name)
  /\ (forall m0 m1 rest d0 d1,
        findall_d6 file_name = m0 :: m1 :: rest ->
        to_datetime_Ymd ("20" ++ m0) = Ok d0 ->
        to_datetime_Ymd ("20" ++ m1) = Ok d1 ->
        extract_dates today file_name = Ok (FromFilename, d0, d1)
        /\ d0 = mkdate (2000 + int_of_digits 0 (substring 0 2 m0))
                  (int_of_digits 0 (substring 2 2 m0))
                  (int_of_digits 0 (substring 4 2 m0))
        /\ d1 = mkdate (2000 + int_of_digits 0 (substring 0 2 m1))
                  (int_of_digits 0 (substring 2 2 m1))
                  (int_of_digits 0 (substring 4 2 m1)))
  /\ ((List.length (findall_d6 file_name) < 2)%nat ->
      extract_dates today file_name = Ok (CurrentDate, today, today))
  /\ extract_dates today "240107-240113.csv"
     = Ok (FromFilename, mkdate 2024 1 7, mkdate 2024 1 13).
Proof.
  split; [apply findall_d6_blocks|].
  split; [apply findall_d6_runs_of_six|].
  split; [|split; [|reflexivity]].
  - intros m0 m1 rest d0 d1 Hfind H0 H1.
    pose proof (findall_d6_six_digits file_name) as Hsix.
    rewrite Hfind in Hsix.
    inversion Hsix as [|? ? [Hl0 _] Hsix']; subst.
    inversion Hsix' as [|? ? [Hl1 _] _]; subst.
    split.
    + unfold extract_dates. rewrite Hfind, H0. cbn [bind]. rewrite H1.
      reflexivity.
    + split; [apply (to_datetime_Ymd_block m0 d0 Hl0 H0)
             |apply (to_datetime_Ymd_block m1 d1 Hl1 H1)].
  - intros Hlen. unfold extract_dates.
    destruct (findall_d6 file_name) as [|m0 [|m1 rest]]; try reflexivity.
    simpl in Hlen. lia.
Qed.

(** C2 as stated fails on a name whose two dates are not separated, the
    example of the comment in the source: the name holds one run of twelve
    digits and no run of exactly six, yet the dates come from the name and
    not from the current date (here 2026-11-04). *)
Lemma date_extraction_counterexample :
  digit_runs "240107240113.csv" = ["240107240113"]
  /\ runs_of_six "240107240113.csv" = []
  /\ extract_dates (mkdate 2026 11 4) "240107240113.csv"
     = Ok (FromFilename, mkdate 2024 1 7, mkdate 2024 1 13).
Proof. repeat split. Qed.

(** ** The extraction of the record *)


Lemma label_positions_In label cols : forall j k,
  In k (label_positions label j cols) <->
  (j <= k)%nat /\ nth_error cols (k - j) = Some label.
Proof.
  induction cols as [|c cols IH]; intros j k.
  - simpl. split; [tauto|]. intros [_ H]. destruct (k - j)%nat; discriminate.
  - cbn [label_positions]. destruct (String.eqb_spec c label) as [->|Hne].
    + cbn [In]. rewrite IH. split.
      * intros [<-|[Hle Hn]].
        -- split; [lia|]. now rewrite Nat.sub_diag.
        -- split; [lia|]. replace (k - j)%nat with (S (k - S j)) by lia.
           exact Hn.
      * intros [Hle Hn]. destruct (Nat.eq_dec j k) as [|Hjk]; [now left|].
        right. split; [lia|].
        replace (k - j)%nat with (S (k - S j)) in Hn by lia. exact Hn.
    + rewrite IH. split.
      * intros [Hle Hn]. split; [lia|].
        replace (k - j)%nat with (S (k - S j)) by lia. exact Hn.
      * intros [Hle Hn]. destruct (Nat.eq_dec j k) as [<-|Hjk].
        -- rewrite Nat.sub_diag in Hn. simpl in Hn. congruence.
        -- split; [lia|].
           replace (k - j)%nat with (S (k - S j)) in Hn by lia. exact Hn.
Qed.

Lemma label_positions_NoDup label cols : forall j,
  NoDup (label_positions label j cols).
Proof.
  induction cols as [|c cols IH]; intros j; [constructor|].
  cbn [label_positions]. destruct (String.eqb c label); [|apply IH].
  constructor; [|apply IH]. rewrite label_positions_In. lia.
Qed.


Lemma label_positions_only label cols j :
  label_positions label 0 cols = [j] <-> only_column label cols j.
Proof.
  split.
  - intros H. split.
    + assert (Hj : In j (label_positions label 0 cols)) by (rewrite H; now left).
      apply label_positions_In in Hj as [_ Hj]. now rewrite Nat.sub_0_r in Hj.
    + intros i Hi.
      assert (Hin : In i (label_positions label 0 cols))
        by (apply label_positions_In; rewrite Nat.sub_0_r; split; [lia|exact Hi]).
      rewrite H in Hin. destruct Hin as [<-|[]]. reflexivity.
  - intros [Hj Huniq].
    pose proof (label_positions_NoDup label cols 0) as Hnd.
    assert (Hall : forall k, In k (label_positions label 0 cols) -> k = j).
    { intros k Hk. apply label_positions_In in Hk as [_ Hk].
      rewrite Nat.sub_0_r in Hk. now apply Huniq. }
    assert (Hin : In j (label_positions label 0 cols))
      by (apply label_positions_In; rewrite Nat.sub_0_r; split; [lia|exact Hj]).
    destruct (label_positions label 0 cols) as [|a [|b l]].
    + destruct Hin.
    + f_equal. apply Hall. now left.
    + exfalso. inversion Hnd as [|? ? Hnotin _]; subst. apply Hnotin.
      rewrite (Hall a), (Hall b); [now left|right; now left|now left].
Qed.





Section Extraction.

Variable float_of_str : string -> option float.


Lemma extract_rate_selected today df file_name iso :
  only_column "ISO" (map strip (columns df)) iso ->
  extract_rate float_of_str today df file_name =
  match select_rows iso (rows df) with
  | [] => CurrencyNotFoundError
  | cny_row :: _ => load_row float_of_str today file_name cny_row
  end.
Proof.
  intros H. apply label_positions_only in H.
  unfold extract_rate, load_row. rewrite H. reflexivity.
Qed.



Lemma is_positive_false (v : option float) :
  is_positive v = false <->
  v = None \/ exists x, v = Some x /\ PrimFloat.ltb 0 x = false.
Proof.
  destruct v as [x|]; simpl.
  - split.
    + intros H. right. exists x. now split.
    + intros [H|(y & H & Hy)]; [discriminate|]. now injection H as ->.
  - split; [now left|reflexivity].
Qed.

(** C1, as amended: for every selected row of a frame with one ISO column,
    once the dates have been taken from the file name: a row with fewer
    than six cells is the generic error; otherwise the cell at position 4
    is the per-unit candidate and the cell at position 5 the per-100
    candidate, each converted by [float] after its commas are removed (a
    candidate that [float] refuses or that is not above zero is absent);
    a present per-unit candidate is the rate, else a present per-100
    candidate divided by 100 is the rate, else the rate is not found. *)
Theorem rate_selection (today : date) (df : DataFrame) (file_name : string)
    (iso : nat) (cny_row : list string) (others : list (list string))
    (src : date_source) (start_date end_date : date) :
  only_column "ISO" (map strip (columns df)) iso ->
  select_rows iso (rows df) = cny_row :: others ->
  extract_dates today file_name = Ok (src, start_date, end_date) ->
  ((List.length cny_row < 6)%nat ->
   extract_rate float_of_str today df file_name = Error IndexError)
  /\ forall rate_1 rate_100,
       nth_error cny_row 4 = Some rate_1 ->
       nth_error cny_row 5 = Some rate_100 ->
       let v1 := float_of_str (remove_commas rate_1) in
       let v100 := float_of_str (remove_commas rate_100) in
       (forall x, v1 = Some x -> PrimFloat.ltb 0 x = true ->
          extract_rate float_of_str today df file_name
          = Loaded (mkrecord start_date end_date "CNY" "人民元" x file_name))
       /\ (is_positive v1 = false ->
           forall y, v100 = Some y -> PrimFloat.ltb 0 y = true ->
             extract_rate float_of_str today df file_name
             = Loaded (mkrecord start_date end_date "CNY" "人民元"
                         (PrimFloat.div y 100) file_name))
       /\ (is_positive v1 = false -> is_positive v100 = false ->
           extract_rate float_of_str today df file_name = RateNotFoundError).
Proof.
  intros Hiso Hrows Hdates.
  rewrite (extract_rate_selected _ _ _ _ Hiso), Hrows.
  unfold load_row, select_rate, iloc. rewrite Hdates. split.
  - intros Hlen.
    destruct (nth_error cny_row 4) as [rate_1|] eqn:H4; cbn [bind];
      [|reflexivity].
    destruct (nth_error cny_row 5) as [rate_100|] eqn:H5; cbn [bind];
      [|reflexivity].
    assert (5 < List.length cny_row)%nat
      by (apply nth_error_Some; congruence). lia.
  - intros rate_1 rate_100 -> ->. cbn [bind]. unfold to_float, final_rate.
    cbv zeta. repeat split.
    + intros x -> Hx. simpl. rewrite Hx. reflexivity.
    + intros -> y -> Hy. simpl. rewrite Hy. reflexivity.
    + intros -> ->. reflexivity.
Qed.

(** C9, as amended: a loaded record carries the currency code CNY, its
    label, the file name, and the dates taken from the file name (on the
    branch of the current date both are that date, so the start is not
    after the end); its rate is either the per-unit candidate of a row,
    which is above zero, or the per-100 candidate of a row, which is above
    zero, divided by 100. *)
Theorem loaded_record (today : date) (df : DataFrame) (file_name : string)
    (r : ExchangeRateRecord) :
  extract_rate float_of_str today df file_name = Loaded r ->
  iso_code r = "CNY" /\ currency_name r = "人民元"
  /\ source_file r = file_name
  /\ (exists src,
        extract_dates today file_name = Ok (src, start_date r, end_date r)
        /\ (src = CurrentDate ->
            start_date r = today /\ end_date r = today
            /\ date_leb (start_date r) (end_date r) = true))
  /\ exists row rate_1 rate_100,
       In row (rows df)
       /\ nth_error row 4 = Some rate_1 /\ nth_error row 5 = Some rate_100
       /\ ((to_float float_of_str rate_1 = Some (rate r)
            /\ PrimFloat.ltb 0 (rate r) = true)
           \/ exists y, to_float float_of_str rate_100 = Some y
                        /\ PrimFloat.ltb 0 y = true
                        /\ rate r = PrimFloat.div y 100).
Proof.
  unfold extract_rate.
  destruct (label_positions "ISO" 0 (map strip (columns df)))
    as [|iso [|iso' l]]; try discriminate.
  destruct (select_rows iso (rows df)) as [|row others] eqn:Hrows;
    [discriminate|].
  assert (Hin : In row (rows df)).
  { unfold select_rows in Hrows.
    assert (H : In row (row :: others)) by now left.
    rewrite <- Hrows in H. apply filter_In in H. tauto. }
  destruct (extract_dates today file_name) as [[[src s] e]|x] eqn:Hdates;
    [|discriminate].
  unfold select_rate, iloc.
  destruct (nth_error row 4) as [rate_1|] eqn:H4; cbn [bind]; [|discriminate].
  destruct (nth_error row 5) as [rate_100|] eqn:H5; cbn [bind];
    [|discriminate].
  destruct (final_rate (to_float float_of_str rate_1)
              (to_float float_of_str rate_100)) as [x|] eqn:Hrate;
    [|discriminate].
  intros H. injection H as <-. cbn [iso_code currency_name source_file
    start_date end_date rate].
  repeat split.
  - exists src. split; [reflexivity|]. intros ->.
    unfold extract_dates in Hdates.
    destruct (findall_d6 file_name) as [|m0 [|m1 rest]].
    + injection Hdates as <- <-. repeat split.
      unfold date_leb, date_eqb. rewrite !Z.eqb_refl. apply orb_true_r.
    + injection Hdates as <- <-. repeat split.
      unfold date_leb, date_eqb. rewrite !Z.eqb_refl. apply orb_true_r.
    + destruct (to_datetime_Ymd ("20" ++ m0)); cbn [bind] in Hdates;
        [|discriminate].
      destruct (to_datetime_Ymd ("20" ++ m1)); cbn [bind] in Hdates;
        discriminate.
  - exists row, rate_1, rate_100. repeat split; try assumption.
    unfold final_rate in Hrate.
    destruct (is_positive (to_float float_of_str rate_1)) eqn:H1.
    + left. rewrite Hrate in *. split; [reflexivity|exact H1].
    + destruct (is_positive (to_float float_of_str rate_100)) eqn:H100;
        [|discriminate].
      right. destruct (to_float float_of_str rate_100) as [y|];
        [|discriminate].
      injection Hrate as <-. exists y. repeat split. exact H100.
Qed.

(** C10, as amended: when the file name holds two matches or more and
    the first or the second, prefixed with 20, is not a date, the dates are
    not extracted: the step raises, no record is loaded whatever the frame,
    and the answer is the generic error once a row is selected in a frame
    with one ISO column. The current date is used only for a name with
    fewer than two matches. *)
Theorem invalid_date_in_name (today : date) (file_name m0 m1 : string)
    (rest : list string) :
  findall_d6 file_name = m0 :: m1 :: rest ->
  to_datetime_Ymd ("20" ++ m0) = Raise ValueError
  \/ to_datetime_Ymd ("20" ++ m1) = Raise ValueError ->
  extract_dates today file_name = Raise ValueError
  /\ (forall df r, extract_rate float_of_str today df file_name <> Loaded r)
  /\ (forall df iso cny_row others,
        only_column "ISO" (map strip (columns df)) iso ->
        select_rows iso (rows df) = cny_row :: others ->
        extract_rate float_of_str today df file_name = Error ValueError)
  /\ forall today' name start_date end_date,
       extract_dates today' name = Ok (CurrentDate, start_date, end_date) ->
       (List.length (findall_d6 name) < 2)%nat.
Proof.
  intros Hfind Hbad.
  assert (Hdates : extract_dates today file_name = Raise ValueError).
  { unfold extract_dates. rewrite Hfind.
    destruct Hbad as [H|H].
    - rewrite H. reflexivity.
    - rewrite H. destruct (to_datetime_Ymd ("20" ++ m0)) as [d|e] eqn:E;
        [reflexivity|]. cbn [bind]. f_equal.
      apply (to_datetime_Ymd_error _ _ E). }
  split; [exact Hdates|]. split; [|split].
  - intros df r. unfold extract_rate.
    destruct (label_positions "ISO" 0 (map strip (columns df)))
      as [|iso [|iso' l]]; try discriminate.
    destruct (select_rows iso (rows df)); [discriminate|].
    rewrite Hdates. discriminate.
  - intros df iso cny_row others Hiso Hrows.
    rewrite (extract_rate_selected _ _ _ _ Hiso), Hrows.
    unfold load_row. rewrite Hdates. reflexivity.
  - intros today' name s e H. unfold extract_dates in H.
    destruct (findall_d6 name) as [|a [|b l]]; simpl; try lia.
    destruct (to_datetime_Ymd ("20" ++ a)); cbn [bind] in H; [|discriminate].
    destruct (to_datetime_Ymd ("20" ++ b)); cbn [bind] in H; discriminate.
Qed.

End Extraction.

(** *** Examples of the extraction *)

Lemma rate_selection_witness :
  extract_rate float_of_sample sample_today sample_frame "240107-240113.csv"
  = Loaded (mkrecord (mkdate 2024 1 7) (mkdate 2024 1 13) "CNY" "人民元"
              19.5%float "240107-240113.csv").
Proof.
  refine (proj1 (proj2 (rate_selection float_of_sample sample_today
                          sample_frame "240107-240113.csv" 1%nat _ _
                          FromFilename _ _ _ eq_refl eq_refl)
                   "19.50" "nan" eq_refl eq_refl) 19.5%float eq_refl eq_refl).
  apply label_positions_only. reflexivity.
Defined.

Example rate_per_100 :
  extract_rate float_of_sample sample_today (per_100_frame "1950.00")
    "240107-240113.csv"
  = Loaded (mkrecord (mkdate 2024 1 7) (mkdate 2024 1 13) "CNY" "人民元"
              19.5%float "240107-240113.csv").
Proof. reflexivity. Qed.

Example rate_not_found :
  extract_rate float_of_sample sample_today (per_100_frame "")
    "240107-240113.csv"
  = RateNotFoundError.
Proof. reflexivity. Qed.

(** C1 as stated fails on a row of five cells: the per-unit candidate is
    present and above zero, and the answer is the generic error. *)
Lemma rate_selection_counterexample :
  select_rows 1 (rows short_frame) = [["China"; "CNY"; "Yuan"; "1"; "19.50"]]
  /\ to_float float_of_sample "19.50" = Some 19.5%float
  /\ PrimFloat.ltb 0 19.5 = true
  /\ extract_rate float_of_sample sample_today short_frame "240107-240113.csv"
     = Error IndexError.
Proof. repeat split. Qed.

Lemma loaded_record_witness :
  let r := mkrecord (mkdate 2024 1 7) (mkdate 2024 1 13) "CNY" "人民元"
             19.5%float "240107-240113.csv" in
  iso_code r = "CNY" /\ currency_name r = "人民元"
  /\ source_file r = "240107-240113.csv"
  /\ (exists src,
        extract_dates sample_today "240107-240113.csv"
        = Ok (src, start_date r, end_date r)
        /\ (src = CurrentDate ->
            start_date r = sample_today /\ end_date r = sample_today
            /\ date_leb (start_date r) (end_date r) = true))
  /\ exists row rate_1 rate_100,
       In row (rows sample_frame)
       /\ nth_error row 4 = Some rate_1 /\ nth_error row 5 = Some rate_100
       /\ ((to_float float_of_sample rate_1 = Some (rate r)
            /\ PrimFloat.ltb 0 (rate r) = true)
           \/ exists y, to_float float_of_sample rate_100 = Some y
                        /\ PrimFloat.ltb 0 y = true
                        /\ rate r = PrimFloat.div y 100).
Proof.
  apply (loaded_record float_of_sample sample_today sample_frame
           "240107-240113.csv"). reflexivity.
Defined.

(** C9 as stated fails twice. A file name whose first date is after its
    second gives a record whose start is after its end; and a per-100
    candidate at the smallest positive binary64 is above zero, while its
    hundredth rounds to zero. *)
Lemma loaded_record_counterexample :
  (extract_rate float_of_sample sample_today sample_frame "240113-240107.csv"
   = Loaded (mkrecord (mkdate 2024 1 13) (mkdate 2024 1 7) "CNY" "人民元"
               19.5%float "240113-240107.csv")
   /\ date_leb (mkdate 2024 1 13) (mkdate 2024 1 7) = false)
  /\ (extract_rate float_of_sample sample_today (per_100_frame "5e-324")
        "240107-240113.csv"
      = Loaded (mkrecord (mkdate 2024 1 7) (mkdate 2024 1 13) "CNY" "人民元"
                  0%float "240107-240113.csv")
      /\ PrimFloat.ltb 0 0x1p-1074 = true
      /\ PrimFloat.ltb 0 (PrimFloat.div 0x1p-1074 100) = false).
Proof. repeat split. Qed.

Lemma invalid_date_in_name_witness :
  extract_rate float_of_sample sample_today sample_frame "999999-240113.csv"
  = Error ValueError.
Proof.
  refine (proj1 (proj2 (proj2 (invalid_date_in_name float_of_sample
                                 sample_today "999999-240113.csv"
                                 "999999" "240113" [] eq_refl
                                 (or_introl eq_refl))))
            sample_frame 1%nat _ _ _ eq_refl).
  apply label_positions_only. reflexivity.
Defined.

(** C10 as stated fails on a third match: the name holds three runs of
    six digits, the third, prefixed with 20, is not a date, and the record
    is loaded with the dates of the first two, which alone are read. *)
Lemma invalid_date_in_name_counterexample :
  findall_d6 "240107-240113-999999.csv" = ["240107"; "240113"; "999999"]
  /\ to_datetime_Ymd ("20" ++ "999999") = Raise ValueError
  /\ extract_rate float_of_sample sample_today sample_frame
       "240107-240113-999999.csv"
     = Loaded (mkrecord (mkdate 2024 1 7) (mkdate 2024 1 13) "CNY" "人民元"
                 19.5%float "240107-240113-999999.csv").
Proof. repeat split. Qed.


Example row_selection_examples :
  extract_rate float_of_sample sample_today
    (mkframe ["Country"; "Code"] [["China"; "CNY"]]) "240107-240113.csv"
  = MissingColumnError
  /\ extract_rate float_of_sample sample_today
       (mkframe sample_columns [["USA"; "USD"; "Dollar"; "1"; "150.25"; "nan"];
                                ["China"; "cny"; "Yuan"; "1"; "19.50"; "nan"]])
       "240107-240113.csv"
     = CurrencyNotFoundError
  /\ only_column "ISO" (map strip sample_columns) 1.
Proof.
  repeat split; apply label_positions_only; reflexivity.
Qed.

(** *** The link of the latest bulletin *)

Section Locate.

Variable urljoin : string -> string -> string.

Lemma find_csv_link_first soup t :
  find_csv_link soup = Some t ->
  tag_name t = "a"
  /\ exists h, href t = Some h /\ h <> "" /\ contains ".csv" h = true.
Proof.
  unfold find_csv_link. intros H. apply find_some in H as [_ H].
  apply andb_true_iff in H as [Hn Hf]. apply String.eqb_eq in Hn.
  split; [exact Hn|]. unfold href_filter in Hf.
  destruct (href t) as [h|]; [|discriminate].
  apply andb_true_iff in Hf as [Hf _]. apply andb_true_iff in Hf as [He Hc].
  exists h. repeat split; [|exact Hc].
  intros ->. discriminate.
Qed.

Lemma locate_latest_none soup :
  locate_latest urljoin soup = None <->
  Forall (fun t => String.eqb (tag_name t) "a" && href_filter (href t) = false)
    soup.
Proof.
  unfold locate_latest. destruct (find_csv_link soup) as [t|] eqn:E.
  - destruct (find_csv_link_first _ _ E) as (_ & h & -> & _).
    split; [discriminate|]. intros H. exfalso.
    unfold find_csv_link in E. apply find_some in E as [Hin Ht].
    rewrite Forall_forall in H. rewrite (H t Hin) in Ht. discriminate.
  - split; [|reflexivity]. intros _. apply Forall_forall. intros t Hin.
    unfold find_csv_link in E.
    apply (find_none _ _ E t Hin).
Qed.

(** C4 at the failing input: the first link passes the test of the source,
    which looks for [.csv] anywhere in the reference, and is returned; it
    has no path segment [csv] and does not end with [.csv], and the link
    after it has both. *)
Theorem locate_latest_takes_any_csv_text :
  locate_latest urljoin sample_page = Some (urljoin base_url "guide.csv.html")
  /\ csv_segment_and_suffix "guide.csv.html" = false
  /\ csv_segment_and_suffix "csv/240107-240113.csv" = true.
Proof. repeat split. Qed.

Example locate_latest_not_found :
  locate_latest urljoin [mktag "a" (Some "index.htm"); mktag "p" None] = None.
Proof. reflexivity. Qed.

End Locate.

Local Close Scope string_scope.

(** ** More on the weekly ranges *)

(** X1: when [get_sunday] returns, the date it returns is a Sunday, on
    or before the date given, from which the date given is reached by
    adding [(weekday + 1) mod 7] days, at most six; and [get_sunday] of
    that Sunday is the Sunday itself. *)
Theorem get_sunday_week (date sunday : Calendar.date) :
  valid_date date = true ->
  get_sunday date = Ok sunday ->
  valid_date sunday = true
  /\ weekday sunday = 6
  /\ date_leb sunday date = true
  /\ 0 <= (weekday date + 1) mod 7 <= 6
  /\ add_days sunday ((weekday date + 1) mod 7) = Ok date
  /\ get_sunday sunday = Ok sunday.
Proof.
  intros Hv H.
  destruct (get_sunday_inv _ _ Hv H) as (Hsv & Hwd & Ho).
  pose proof (Z.mod_pos_bound (toordinal date) 7 ltac:(lia)) as Hm.
  pose proof (toordinal_bounds _ Hv) as Hb.
  pose proof (toordinal_bounds _ Hsv) as Hsb.
  rewrite sunday_offset_ordinal.
  repeat split; try assumption; try lia.
  - apply date_leb_toordinal; try assumption. lia.
  - destruct (add_days_ok sunday (toordinal date mod 7) Hsv ltac:(lia))
      as (d' & Hd' & Hd'v & Hd'o).
    rewrite Hd'. f_equal.
    rewrite <- (fromordinal_toordinal d' Hd'v),
      <- (fromordinal_toordinal date Hv). f_equal. lia.
  - rewrite get_sunday_offset, sunday_offset_ordinal.
    apply weekday_sunday in Hwd. rewrite Hwd. simpl.
    destruct (add_days_ok sunday 0 Hsv ltac:(lia)) as (d' & Hd' & Hd'v & Hd'o).
    change (- 0) with 0. rewrite Hd'. f_equal.
    rewrite <- (fromordinal_toordinal d' Hd'v),
      <- (fromordinal_toordinal sunday Hsv). f_equal. lia.
Qed.

Lemma get_sunday_week_witness :
  valid_date (mkdate 2023 1 1) = true
  /\ weekday (mkdate 2023 1 1) = 6
  /\ date_leb (mkdate 2023 1 1) (mkdate 2023 1 4) = true
  /\ 0 <= (weekday (mkdate 2023 1 4) + 1) mod 7 <= 6
  /\ add_days (mkdate 2023 1 1) ((weekday (mkdate 2023 1 4) + 1) mod 7)
     = Ok (mkdate 2023 1 4)
  /\ get_sunday (mkdate 2023 1 1) = Ok (mkdate 2023 1 1).
Proof.
  apply (get_sunday_week (mkdate 2023 1 4) (mkdate 2023 1 1)); reflexivity.
Defined.

(** X2: [get_sunday] raises [OverflowError] exactly on the dates before
    0001-01-07, whose week starts before the first date; on every later
    date it returns. *)
Theorem get_sunday_raises (date : Calendar.date) :
  valid_date date = true ->
  (get_sunday date = Raise OverflowError <-> date_ltb date FIRST_SUNDAY = true)
  /\ (date_leb FIRST_SUNDAY date = true -> exists sunday, get_sunday date = Ok sunday).
Proof.
  intros Hv. split.
  - rewrite (date_ltb_toordinal _ _ Hv valid_FIRST_SUNDAY),
      toordinal_FIRST_SUNDAY. split.
    + intros H. destruct (Z_lt_ge_dec (toordinal date) 7) as [|Hge];
        [assumption|].
      destruct (get_sunday_ok _ Hv ltac:(lia)) as (s & Hs). congruence.
    + apply get_sunday_overflow. exact Hv.
  - intros H. apply (date_leb_toordinal _ _ valid_FIRST_SUNDAY Hv) in H.
    rewrite toordinal_FIRST_SUNDAY in H. apply get_sunday_ok; assumption.
Qed.

Lemma get_sunday_raises_witness :
  (get_sunday (mkdate 1 1 6) = Raise OverflowError
   <-> date_ltb (mkdate 1 1 6) FIRST_SUNDAY = true)
  /\ (date_leb FIRST_SUNDAY (mkdate 1 1 6) = true ->
      exists sunday, get_sunday (mkdate 1 1 6) = Ok sunday).
Proof. apply (get_sunday_raises (mkdate 1 1 6)). reflexivity. Defined.

Lemma saturday_offset_ordinal d :
  (if 5 - weekday d <? 0 then 5 - weekday d + 7 else 5 - weekday d)
  = 6 - toordinal d mod 7.
Proof.
  unfold weekday. destruct (Z.ltb_spec (5 - (toordinal d + 6) mod 7) 0);
    Z.div_mod_to_equations; lia.
Qed.

Lemma get_saturday_offset d :
  get_saturday d = add_days d (6 - toordinal d mod 7).
Proof. unfold get_saturday. cbv zeta. now rewrite saturday_offset_ordinal. Qed.

Lemma weekday_saturday d : weekday d = 5 <-> toordinal d mod 7 = 6.
Proof. unfold weekday. Z.div_mod_to_equations. lia. Qed.

Lemma date_of_ordinal a b :
  valid_date a = true -> valid_date b = true ->
  toordinal a = toordinal b -> a = b.
Proof.
  intros Ha Hb H.
  rewrite <- (fromordinal_toordinal a Ha), <- (fromordinal_toordinal b Hb).
  now rewrite H.
Qed.

(** X3: [get_saturday] raises [OverflowError] exactly on the dates after
    9999-12-25; when it returns, the date it returns is a Saturday, on or
    after the date given and at most six days later, and [get_saturday] of
    that Saturday is the Saturday itself. *)
Theorem get_saturday_week (date : Calendar.date) :
  valid_date date = true ->
  (get_saturday date = Raise OverflowError
   <-> date_ltb LAST_SATURDAY date = true)
  /\ forall saturday,
       get_saturday date = Ok saturday ->
       valid_date saturday = true
       /\ weekday saturday = 5
       /\ date_leb date saturday = true
       /\ (exists k, 0 <= k <= 6 /\ add_days date k = Ok saturday)
       /\ get_saturday saturday = Ok saturday.
Proof.
  intros Hv. pose proof (toordinal_bounds _ Hv) as Hb.
  pose proof (Z.mod_pos_bound (toordinal date) 7 ltac:(lia)) as Hm.
  rewrite get_saturday_offset. split.
  - rewrite (date_ltb_toordinal _ _ valid_LAST_SATURDAY Hv),
      toordinal_LAST_SATURDAY. split.
    + intros H.
      destruct (Z_le_gt_dec (toordinal date) 3652053) as [Hle|]; [|lia].
      destruct (add_days_ok date (6 - toordinal date mod 7) Hv)
        as (s & Hs & _); [|congruence].
      unfold MAXORDINAL. Z.div_mod_to_equations. lia.
    + intros H. apply add_days_overflow. unfold MAXORDINAL in *.
      Z.div_mod_to_equations. lia.
  - intros saturday H.
    destruct (add_days_inv _ _ _ Hv H) as (Hsv & Hso & Hsr).
    assert (Hsat : toordinal saturday mod 7 = 6)
      by (rewrite Hso; Z.div_mod_to_equations; lia).
    repeat split; try assumption.
    + apply weekday_saturday. exact Hsat.
    + apply date_leb_toordinal; try assumption. lia.
    + exists (6 - toordinal date mod 7). split; [lia|exact H].
    + rewrite get_saturday_offset, Hsat.
      destruct (add_days_ok saturday (6 - 6) Hsv ltac:(lia))
        as (d' & Hd' & Hd'v & Hd'o).
      rewrite Hd'. f_equal. apply date_of_ordinal; try assumption. lia.
Qed.

Lemma get_saturday_week_witness :
  (get_saturday (mkdate 2023 1 4) = Raise OverflowError
   <-> date_ltb LAST_SATURDAY (mkdate 2023 1 4) = true)
  /\ forall saturday,
       get_saturday (mkdate 2023 1 4) = Ok saturday ->
       valid_date saturday = true
       /\ weekday saturday = 5
       /\ date_leb (mkdate 2023 1 4) saturday = true
       /\ (exists k, 0 <= k <= 6 /\ add_days (mkdate 2023 1 4) k = Ok saturday)
       /\ get_saturday saturday = Ok saturday.
Proof. apply (get_saturday_week (mkdate 2023 1 4)). reflexivity. Defined.

(** X4: [get_sunday] and [get_saturday] of one date delimit one week:
    the Saturday is six days after the Sunday, it is the Saturday of the
    Sunday, and the Sunday is the Sunday of the Saturday. *)
Theorem sunday_to_saturday (date sunday saturday : Calendar.date) :
  valid_date date = true ->
  get_sunday date = Ok sunday ->
  get_saturday date = Ok saturday ->
  add_days sunday 6 = Ok saturday
  /\ get_saturday sunday = Ok saturday
  /\ get_sunday saturday = Ok sunday.
Proof.
  intros Hv Hsun Hsat.
  destruct (get_sunday_inv _ _ Hv Hsun) as (Hsv & Hwd & Ho).
  rewrite get_saturday_offset in Hsat.
  destruct (add_days_inv _ _ _ Hv Hsat) as (Htv & Hto & Htr).
  pose proof (Z.mod_pos_bound (toordinal date) 7 ltac:(lia)) as Hm.
  pose proof (toordinal_bounds _ Hsv) as Hsb.
  assert (H6 : add_days sunday 6 = Ok saturday).
  { destruct (add_days_ok sunday 6 Hsv ltac:(lia)) as (d' & Hd' & Hd'v & Hd'o).
    rewrite Hd'. f_equal. apply date_of_ordinal; try assumption. lia. }
  repeat split; [exact H6| |].
  - rewrite get_saturday_offset. apply weekday_sunday in Hwd. rewrite Hwd.
    exact H6.
  - rewrite get_sunday_offset, sunday_offset_ordinal.
    assert (Hmod : toordinal saturday mod 7 = 6)
      by (rewrite Hto; Z.div_mod_to_equations; lia).
    rewrite Hmod. cbn [Z.opp].
    destruct (add_days_ok saturday (- 6) Htv ltac:(lia))
      as (d' & Hd' & Hd'v & Hd'o).
    rewrite Hd'. f_equal. apply date_of_ordinal; try assumption. lia.
Qed.

Lemma sunday_to_saturday_witness :
  add_days (mkdate 2023 1 1) 6 = Ok (mkdate 2023 1 7)
  /\ get_saturday (mkdate 2023 1 1) = Ok (mkdate 2023 1 7)
  /\ get_sunday (mkdate 2023 1 7) = Ok (mkdate 2023 1 1).
Proof.
  apply (sunday_to_saturday (mkdate 2023 1 4)); reflexivity.
Defined.

(** The loop on an end date after 9999-12-25: some step leaves the
    calendar. *)
Lemma weekly_loop_overflow end_date :
  valid_date end_date = true -> 3652053 < toordinal end_date ->
  forall fuel current ranges,
    valid_date current = true -> toordinal current mod 7 = 0 ->
    toordinal current <= toordinal end_date ->
    (Z.to_nat (toordinal end_date - toordinal current + 1) <= fuel)%nat ->
    weekly_loop fuel current end_date ranges = Some (Raise OverflowError).
Proof.
  intros He Hlate. induction fuel as [|fuel IH];
    intros current ranges Hc Hs Hle Hf; [lia|].
  pose proof (toordinal_bounds _ Hc) as Hb.
  pose proof (toordinal_bounds _ He) as Heb.
  cbn [weekly_loop].
  rewrite (proj2 (date_leb_toordinal _ _ Hc He) Hle).
  destruct (Z_le_gt_dec (toordinal current + 6) MAXORDINAL) as [H6|H6].
  - destruct (add_days_ok current 6 Hc ltac:(lia)) as (we & -> & _).
    destruct (Z_le_gt_dec (toordinal current + 7) MAXORDINAL) as [H7|H7].
    + destruct (add_days_ok current 7 Hc ltac:(lia)) as (nx & -> & Hnv & Hno).
      apply IH; try assumption.
      * rewrite Hno. Z.div_mod_to_equations. lia.
      * rewrite Hno. unfold MAXORDINAL in *. Z.div_mod_to_equations. lia.
      * lia.
    + rewrite (add_days_overflow current 7) by lia. reflexivity.
  - rewrite (add_days_overflow current 6) by lia. reflexivity.
Qed.

(** X5: [generate_weekly_ranges] raises [OverflowError] when the start is
    before 0001-01-07, and when the Sunday of the start is not after the
    end and the end is after 9999-12-25; it returns a list when the end is
    before the Sunday of the start, or not after 9999-12-25. *)
Theorem generate_weekly_ranges_raises (start_date end_date : date) :
  valid_date start_date = true -> valid_date end_date = true ->
  (date_ltb start_date FIRST_SUNDAY = true ->
   generate_weekly_ranges start_date end_date = Some (Raise OverflowError))
  /\ forall first,
       get_sunday start_date = Ok first ->
       (date_leb first end_date = true ->
        date_ltb LAST_SATURDAY end_date = true ->
        generate_weekly_ranges start_date end_date
        = Some (Raise OverflowError))
       /\ (date_ltb end_date first = true
           \/ date_leb end_date LAST_SATURDAY = true ->
           exists ws,
             generate_weekly_ranges start_date end_date = Some (Ok ws)).
Proof.
  intros Hs He. split.
  - intros H. apply (date_ltb_toordinal _ _ Hs valid_FIRST_SUNDAY) in H.
    rewrite toordinal_FIRST_SUNDAY in H.
    unfold generate_weekly_ranges.
    rewrite (get_sunday_overflow _ Hs H). reflexivity.
  - intros first Hfirst.
    destruct (get_sunday_inv _ _ Hs Hfirst) as (Hfv & Hwd & Hfo).
    apply weekday_sunday in Hwd. split.
    + intros Hle Hlate.
      apply (date_leb_toordinal _ _ Hfv He) in Hle.
      apply (date_ltb_toordinal _ _ valid_LAST_SATURDAY He) in Hlate.
      rewrite toordinal_LAST_SATURDAY in Hlate.
      unfold generate_weekly_ranges. rewrite Hfirst.
      apply weekly_loop_overflow; try assumption. unfold weekly_fuel. lia.
    + intros [Hlt|Hin].
      * exists []. unfold generate_weekly_ranges. rewrite Hfirst.
        apply date_leb_false_ltb in Hlt.
        destruct (weekly_fuel first end_date); simpl; rewrite Hlt;
          reflexivity.
      * assert (Hlo : date_leb FIRST_SUNDAY start_date = true).
        { apply (date_leb_toordinal _ _ valid_FIRST_SUNDAY Hs).
          rewrite toordinal_FIRST_SUNDAY.
          destruct (Z_lt_ge_dec (toordinal start_date) 7) as [Hlt|]; [|lia].
          rewrite (get_sunday_overflow _ Hs Hlt) in Hfirst. discriminate. }
        destruct (generate_weekly_ranges_weeks _ _ Hs He Hlo Hin)
          as (f & ws & _ & _ & _ & Hgen & _).
        exists ws. exact Hgen.
Qed.

Lemma generate_weekly_ranges_raises_witness :
  generate_weekly_ranges (mkdate 9999 12 1) (mkdate 9999 12 26)
  = Some (Raise OverflowError).
Proof.
  apply (proj1 (proj2 (generate_weekly_ranges_raises (mkdate 9999 12 1)
                         (mkdate 9999 12 26) eq_refl eq_refl)
                  (mkdate 9999 11 28) eq_refl)); reflexivity.
Defined.

Lemma weeks_from_length end_date current ws :
  valid_date end_date = true ->
  weeks_from end_date current ws ->
  valid_date current = true ->
  Z.of_nat (List.length ws)
  = Z.max 0 ((toordinal end_date - toordinal current + 7) / 7).
Proof.
  intros He H.
  induction H as [current Hle|current we next ws Hle Hwe Hnx H IH]; intros Hc.
  - apply date_leb_false_ltb in Hle.
    apply (date_ltb_toordinal _ _ He Hc) in Hle.
    simpl. Z.div_mod_to_equations. lia.
  - destruct (add_days_inv _ _ _ Hc Hnx) as (Hnv & Hno & _).
    apply (date_leb_toordinal _ _ Hc He) in Hle.
    specialize (IH Hnv). rewrite Hno in IH.
    cbn [List.length]. rewrite Nat2Z.inj_succ, IH.
    Z.div_mod_to_equations. lia.
Qed.

(** X6: for 0001-01-07 <= start_date <= end_date <= 9999-12-25 the
    number of windows is the number of days from the Sunday of the start
    to the end, divided by seven and rounded down, plus one; counted from
    the start itself it is that quotient plus one or plus two. *)
Theorem number_of_weeks (start_date end_date : date) :
  valid_date start_date = true -> valid_date end_date = true ->
  date_leb start_date end_date = true ->
  date_leb FIRST_SUNDAY start_date = true ->
  date_leb end_date LAST_SATURDAY = true ->
  exists first ws,
    get_sunday start_date = Ok first
    /\ generate_weekly_ranges start_date end_date = Some (Ok ws)
    /\ Z.of_nat (List.length ws)
       = (toordinal end_date - toordinal first) / 7 + 1
    /\ (toordinal end_date - toordinal start_date) / 7 + 1
       <= Z.of_nat (List.length ws)
       <= (toordinal end_date - toordinal start_date) / 7 + 2.
Proof.
  intros Hs He Hle Hlo Hhi.
  destruct (generate_weekly_ranges_weeks _ _ Hs He Hlo Hhi)
    as (first & ws & Hfirst & Hfv & Hfo & Hgen & Hweeks).
  exists first, ws. split; [exact Hfirst|]. split; [exact Hgen|].
  rewrite (weeks_from_length _ _ _ He Hweeks Hfv).
  apply (date_leb_toordinal _ _ Hs He) in Hle.
  pose proof (Z.mod_pos_bound (toordinal start_date) 7 ltac:(lia)).
  split; Z.div_mod_to_equations; lia.
Qed.

Lemma number_of_weeks_witness :
  exists first ws,
    get_sunday (mkdate 2023 1 4) = Ok first
    /\ generate_weekly_ranges (mkdate 2023 1 4) (mkdate 2023 1 20)
       = Some (Ok ws)
    /\ Z.of_nat (List.length ws)
       = (toordinal (mkdate 2023 1 20) - toordinal first) / 7 + 1
    /\ (toordinal (mkdate 2023 1 20) - toordinal (mkdate 2023 1 4)) / 7 + 1
       <= Z.of_nat (List.length ws)
       <= (toordinal (mkdate 2023 1 20) - toordinal (mkdate 2023 1 4)) / 7 + 2.
Proof.
  apply (number_of_weeks (mkdate 2023 1 4) (mkdate 2023 1 20)); reflexivity.
Defined.

Local Open Scope string_scope.

Lemma NoDup_map_of_composite {A B C : Type} (f : A -> B) (g : B -> C) l :
  NoDup (map (fun x => g (f x)) l) -> NoDup (map f l).
Proof.
  induction l as [|a l IH]; intros H; [constructor|].
  cbn [map] in *. inversion H as [|? ? Hnotin Hrest]; subst.
  constructor; [|apply IH, Hrest].
  intros Hin. apply Hnotin. apply in_map_iff in Hin as (x & Hx & Hxl).
  apply in_map_iff. exists x. split; [now rewrite Hx|exact Hxl].
Qed.

Lemma filename_start (start_str end_str : string) :
  String.length start_str = 6%nat ->
  substring 0 6 (filename start_str end_str) = start_str.
Proof.
  destruct start_str as [|c1 [|c2 [|c3 [|c4 [|c5 [|c6 [|c7 s]]]]]]];
    try discriminate.
  intros _. unfold filename. cbn [append substring].
  destruct ("-" ++ end_str ++ ".csv"); reflexivity.
Qed.

Lemma strftime_yymmdd_length d : String.length (strftime_yymmdd d) = 6%nat.
Proof. reflexivity. Qed.

Lemma in_century_between S d end_date :
  valid_date S = true -> valid_date d = true -> valid_date end_date = true ->
  toordinal S <= toordinal d <= toordinal end_date ->
  date_ltb end_date (mkdate (year S + 100) (month S) (day S)) = true ->
  in_century S d.
Proof.
  intros HS Hd He [Hlo Hhi] Hcent. split.
  - apply date_leb_toordinal; assumption.
  - apply (date_leb_toordinal _ _ Hd He) in Hhi.
    apply date_leb_spec in Hhi. apply date_ltb_spec in Hcent.
    apply date_ltb_spec. simpl in *. lia.
Qed.

Lemma weeks_from_between end_date current ws :
  valid_date end_date = true ->
  weeks_from end_date current ws ->
  valid_date current = true ->
  Forall (fun w => valid_date (week_start w) = true
                   /\ toordinal current <= toordinal (week_start w)
                      <= toordinal end_date
                   /\ start_str w = strftime_yymmdd (week_start w)
                   /\ end_str w = strftime_yymmdd (week_end w)
                   /\ add_days (week_start w) 6 = Ok (week_end w)) ws.
Proof.
  intros He H.
  induction H as [current Hle|current we next ws Hle Hwe Hnx H IH]; intros Hc;
    constructor.
  - apply (date_leb_toordinal _ _ Hc He) in Hle. simpl.
    repeat split; try assumption; lia.
  - destruct (add_days_inv _ _ _ Hc Hnx) as (Hnv & Hno & _).
    eapply Forall_impl; [|apply (IH Hnv)].
    intros w (Hv & Hb & Hrest). repeat split; try tauto; lia.
Qed.

Lemma weeks_from_distinct S end_date current ws :
  valid_date S = true -> valid_date end_date = true ->
  date_ltb end_date (mkdate (year S + 100) (month S) (day S)) = true ->
  weeks_from end_date current ws ->
  valid_date current = true -> toordinal S <= toordinal current ->
  NoDup (map start_str ws).
Proof.
  intros HS He Hcent H.
  induction H as [current Hle|current we next ws Hle Hwe Hnx H IH];
    intros Hc HSc; [constructor|].
  destruct (add_days_inv _ _ _ Hc Hnx) as (Hnv & Hno & _).
  cbn [map start_str]. constructor; [|apply IH; [assumption|lia]].
  intros Hin. apply in_map_iff in Hin as (w & Hw & Hwin).
  pose proof (weeks_from_between _ _ _ He H Hnv) as Hall.
  rewrite Forall_forall in Hall.
  destruct (Hall w Hwin) as (Hwv & Hwb & Hws & _).
  rewrite Hws in Hw.
  apply (date_leb_toordinal _ _ Hc He) in Hle.
  assert (Heq : week_start w = current).
  { apply (same_text_same_date S); try assumption.
    - apply (in_century_between S _ end_date); try assumption. lia.
    - apply (in_century_between S _ end_date); try assumption. lia. }
  rewrite Heq in Hwb. lia.
Qed.

(** X7: when the end is less than a hundred years after the Sunday of the
    start, the file names [start-end.csv] of the windows of
    [generate_weekly_ranges] are pairwise distinct. *)
Theorem weekly_file_names_distinct (start_date end_date first : date)
    (ws : list week_range) :
  valid_date start_date = true -> valid_date end_date = true ->
  get_sunday start_date = Ok first ->
  date_ltb end_date (mkdate (year first + 100) (month first) (day first))
  = true ->
  generate_weekly_ranges start_date end_date = Some (Ok ws) ->
  NoDup (map (fun w => filename (start_str w) (end_str w)) ws).
Proof.
  intros Hs He Hfirst Hcent Hgen.
  destruct (get_sunday_inv _ _ Hs Hfirst) as (Hfv & Hwd & Hfo).
  assert (Hweeks : weeks_from end_date first ws).
  { destruct (date_leb first end_date) eqn:Hle.
    - destruct (date_leb end_date LAST_SATURDAY) eqn:Hhi.
      + assert (Hlo : date_leb FIRST_SUNDAY start_date = true).
        { apply (date_leb_toordinal _ _ valid_FIRST_SUNDAY Hs).
          rewrite toordinal_FIRST_SUNDAY.
          destruct (Z_lt_ge_dec (toordinal start_date) 7) as [Hlt|]; [|lia].
          rewrite (get_sunday_overflow _ Hs Hlt) in Hfirst. discriminate. }
        destruct (generate_weekly_ranges_weeks _ _ Hs He Hlo Hhi)
          as (f & ws' & Hf & _ & _ & Hgen' & Hweeks).
        rewrite Hfirst in Hf. injection Hf as <-.
        rewrite Hgen in Hgen'. injection Hgen' as <-. exact Hweeks.
      + apply date_leb_false_ltb in Hhi.
        apply (date_leb_toordinal _ _ Hfv He) in Hle.
        apply (date_ltb_toordinal _ _ valid_LAST_SATURDAY He) in Hhi.
        rewrite toordinal_LAST_SATURDAY in Hhi.
        unfold generate_weekly_ranges in Hgen. rewrite Hfirst in Hgen.
        rewrite (weekly_loop_overflow end_date He Hhi) in Hgen;
          try assumption; try discriminate.
        * apply weekday_sunday, Hwd.
        * unfold weekly_fuel. lia.
    - unfold generate_weekly_ranges in Hgen. rewrite Hfirst in Hgen.
      destruct (weekly_fuel first end_date); simpl in Hgen;
        rewrite Hle in Hgen; injection Hgen as <-; constructor; exact Hle. }
  pose proof (weeks_from_distinct first _ _ _ Hfv He Hcent Hweeks Hfv
                (Z.le_refl _)) as Hnd.
  apply (NoDup_map_of_composite _ (substring 0 6)).
  pose proof (weeks_from_between _ _ _ He Hweeks Hfv) as Hall.
  erewrite map_ext_in; [exact Hnd|].
  intros w Hw. rewrite Forall_forall in Hall.
  destruct (Hall w Hw) as (_ & _ & Hstr & _).
  cbv beta. apply filename_start. rewrite Hstr. reflexivity.
Qed.

Lemma weekly_file_names_distinct_witness :
  NoDup (map (fun w => filename (start_str w) (end_str w))
           [mkrange "230101" "230107" (mkdate 2023 1 1) (mkdate 2023 1 7);
            mkrange "230108" "230114" (mkdate 2023 1 8) (mkdate 2023 1 14)]).
Proof.
  apply (weekly_file_names_distinct (mkdate 2023 1 4) (mkdate 2023 1 10)
           (mkdate 2023 1 1)); reflexivity.
Defined.

Lemma digit_char_is_digit n : 0 <= n <= 9 -> is_digit (digit_char n) = true.
Proof.
  intros H.
  apply (all_from_spec 10 0 (fun k => is_digit (digit_char k)) eq_refl).
  simpl. lia.
Qed.

Lemma two_digits_all_digits n :
  0 <= n < 100 -> all_digits (two_digits n) = true.
Proof.
  intros H. unfold two_digits. cbn [all_digits].
  rewrite !digit_char_is_digit; [reflexivity| |];
    Z.div_mod_to_equations; lia.
Qed.

Lemma all_digits_app a b :
  all_digits (a ++ b) = all_digits a && all_digits b.
Proof.
  induction a as [|c a IH]; [reflexivity|].
  cbn [append all_digits]. rewrite IH. apply andb_assoc.
Qed.

Lemma strftime_yymmdd_digits d :
  valid_date d = true -> all_digits (strftime_yymmdd d) = true.
Proof.
  intros Hv. apply valid_date_spec in Hv as (_ & Hm & Hd).
  pose proof (days_in_month_le (year d) (month d)).
  pose proof (Z.mod_pos_bound (year d) 100 ltac:(lia)).
  unfold strftime_yymmdd. rewrite !all_digits_app.
  rewrite !two_digits_all_digits by lia. reflexivity.
Qed.

(** The matches of a file name made of two texts of six digits. *)
Lemma findall_d6_filename a b :
  String.length a = 6%nat -> all_digits a = true ->
  String.length b = 6%nat -> all_digits b = true ->
  findall_d6 (filename a b) = [a; b].
Proof.
  intros Hla Ha Hlb Hb. unfold filename.
  rewrite (findall_d6_run 6 a ("-" ++ b ++ ".csv")); [|lia|assumption|reflexivity].
  rewrite (blocks_of_six_le a) by lia. rewrite Hla. cbn [Nat.eqb app].
  f_equal. cbn [append].
  rewrite findall_d6_skip by (apply six_digits_nondigit; reflexivity).
  rewrite (findall_d6_run 6 b ".csv"); [|lia|assumption|reflexivity].
  rewrite (blocks_of_six_le b) by lia. rewrite Hlb. reflexivity.
Qed.

Lemma to_datetime_Ymd_strftime d :
  valid_date d = true -> 2000 <= year d <= 2099 ->
  to_datetime_Ymd ("20" ++ strftime_yymmdd d) = Ok d.
Proof.
  intros Hv Hy. pose proof Hv as Hv'.
  apply valid_date_spec in Hv' as (_ & Hm & Hd).
  pose proof (days_in_month_le (year d) (month d)).
  pose proof (Z.mod_pos_bound (year d) 100 ltac:(lia)) as Hyy.
  unfold to_datetime_Ymd.
  assert (Hdig : all_digits ("20" ++ strftime_yymmdd d) = true).
  { rewrite all_digits_app, (strftime_yymmdd_digits d Hv). reflexivity. }
  assert (Hlen : (String.length ("20" ++ strftime_yymmdd d) =? 8)%nat = true)
    by reflexivity.
  rewrite Hlen, Hdig. cbn [andb]. unfold strftime_yymmdd.
  assert (Hyear : int_of_digits 0
                    (substring 0 4 ("20" ++ two_digits (year d mod 100)
                       ++ two_digits (month d) ++ two_digits (day d)))
                  = year d).
  { pose proof (int_of_two_digits (year d mod 100) Hyy) as E.
    unfold two_digits in *. cbn [append substring int_of_digits] in *.
    unfold digit_value in *.
    change (code "2") with 50. change (code "0") with 48.
    Z.div_mod_to_equations. lia. }
  assert (Hmonth : int_of_digits 0
                    (substring 4 2 ("20" ++ two_digits (year d mod 100)
                       ++ two_digits (month d) ++ two_digits (day d)))
                  = month d)
    by (apply (int_of_two_digits (month d)); lia).
  assert (Hday : int_of_digits 0
                    (substring 6 2 ("20" ++ two_digits (year d mod 100)
                       ++ two_digits (month d) ++ two_digits (day d)))
                  = day d)
    by (apply (int_of_two_digits (day d)); lia).
  rewrite Hyear, Hmonth, Hday.
  replace (mkdate (year d) (month d) (day d)) with d by (destruct d; reflexivity).
  rewrite Hv. reflexivity.
Qed.

(** X8: for dates of the years 2000 to 2099, the file name that
    [download_csv] builds from the two YYMMDD texts of a window is read
    back by the date extraction of [fetch_customs_rate] as the same two
    dates. *)
Theorem file_name_round_trip (today week_start week_end : date) :
  valid_date week_start = true -> valid_date week_end = true ->
  2000 <= year week_start <= 2099 -> 2000 <= year week_end <= 2099 ->
  extract_dates today
    (filename (strftime_yymmdd week_start) (strftime_yymmdd week_end))
  = Ok (FromFilename, week_start, week_end).
Proof.
  intros Hs He Hys Hye. unfold extract_dates.
  rewrite findall_d6_filename;
    try reflexivity; try (apply strftime_yymmdd_digits; assumption).
  rewrite (to_datetime_Ymd_strftime _ Hs Hys). cbn [bind].
  rewrite (to_datetime_Ymd_strftime _ He Hye). reflexivity.
Qed.

Lemma file_name_round_trip_witness :
  extract_dates (mkdate 2026 11 4)
    (filename (strftime_yymmdd (mkdate 2023 1 1))
       (strftime_yymmdd (mkdate 2023 1 7)))
  = Ok (FromFilename, mkdate 2023 1 1, mkdate 2023 1 7).
Proof.
  apply (file_name_round_trip (mkdate 2026 11 4) (mkdate 2023 1 1)
           (mkdate 2023 1 7)); try reflexivity; simpl; lia.
Defined.

(** Outside the years 2000 to 2099 the file name is read as a date of
    those years. *)
Example file_name_of_1999 :
  extract_dates (mkdate 2026 11 4)
    (filename (strftime_yymmdd (mkdate 1999 12 26))
       (strftime_yymmdd (mkdate 2000 1 1)))
  = Ok (FromFilename, mkdate 2099 12 26, mkdate 2000 1 1).
Proof. reflexivity. Qed.

(** ** The loop of the batch download *)

Lemma truthy_download_csv get w :
  truthy (fst (download_csv get (start_str w) (end_str w)))
  = has_body get (week_url w).
Proof.
  unfold download_csv, has_body, week_url. cbv zeta.
  destruct (get _) as [status content|]; [|reflexivity].
  destruct (Z.eqb_spec status 200) as [->|Hne].
  - reflexivity.
  - destruct (status =? 404)%Z; simpl; destruct status as [|p|p];
      try reflexivity;
      destruct content; try reflexivity;
      repeat (destruct p as [p|p|]; try reflexivity); congruence.
Qed.

(** The three ways of one turn of the loop. *)
Lemma download_week_cases get st w :
  (path_exists (files st) (week_path w) = true
   /\ download_week get st w
      = mkrun (files st) (requests st) (downloaded_count st)
          (skipped_count st + 1)%nat (failed_count st)
          (downloaded_files st ++ [week_path w])%list)
  \/ (path_exists (files st) (week_path w) = false
      /\ has_body get (week_url w) = true
      /\ exists content,
           get (week_url w) = Response 200 content
           /\ download_week get st w
              = mkrun (write_file (files st) (week_path w) content)
                  (week_url w :: requests st) (downloaded_count st + 1)%nat
                  (skipped_count st) (failed_count st)
                  (downloaded_files st ++ [week_path w])%list)
  \/ (path_exists (files st) (week_path w) = false
      /\ has_body get (week_url w) = false
      /\ download_week get st w
         = mkrun (files st) (week_url w :: requests st) (downloaded_count st)
             (skipped_count st) (failed_count st + 1)%nat
             (downloaded_files st)).
Proof.
  unfold download_week. cbv zeta. fold (week_path w).
  destruct (path_exists (files st) (week_path w)); [left; split; reflexivity|].
  right. pose proof (truthy_download_csv get w) as Ht.
  destruct (download_csv get (start_str w) (end_str w)) as [content name] eqn:E.
  cbn [fst] in Ht. fold (week_url w). rewrite Ht.
  destruct (has_body get (week_url w)) eqn:Hb.
  - left. repeat split.
    unfold download_csv in E. cbv zeta in E. fold (week_url w) in E.
    unfold has_body in Hb.
    destruct (get (week_url w)) as [status body|]; [|discriminate].
    destruct status as [|p|p]; try discriminate.
    assert (Hp : Z.pos p = 200).
    { repeat (destruct p as [p|p|]; try discriminate). reflexivity. }
    rewrite Hp in *. cbn in E. injection E as <- _.
    exists body. split; reflexivity.
  - right. repeat split.
Qed.

Lemma path_exists_write fs path content p :
  path_exists fs p = true -> path_exists (write_file fs path content) p = true.
Proof.
  unfold write_file, path_exists. intros H. cbn [existsb]. rewrite H.
  apply orb_true_r.
Qed.

Lemma read_file_write fs path content p :
  path_exists fs path = false -> path_exists fs p = true ->
  read_file (write_file fs path content) p = read_file fs p.
Proof.
  intros Hnew Hold. unfold read_file, write_file. cbn [find fst].
  destruct (String.eqb_spec path p) as [->|Hne]; [congruence|reflexivity].
Qed.

(** What one turn keeps. *)
Lemma download_week_keeps get st w :
  let st' := download_week get st w in
  (downloaded_count st' + skipped_count st' + failed_count st'
   = downloaded_count st + skipped_count st + failed_count st + 1)%nat
  /\ (List.length (downloaded_files st') - List.length (downloaded_files st)
      = downloaded_count st' + skipped_count st'
        - (downloaded_count st + skipped_count st))%nat
  /\ (failed_count st <= failed_count st')%nat
  /\ (forall p, path_exists (files st) p = true ->
        path_exists (files st') p = true
        /\ read_file (files st') p = read_file (files st) p)
  /\ (failed_count st' = failed_count st ->
      path_exists (files st') (week_path w) = true).
Proof.
  cbv zeta.
  destruct (download_week_cases get st w)
    as [(He & ->)|[(He & Hb & content & Hget & ->)|(He & Hb & ->)]];
    cbn [files requests downloaded_count skipped_count failed_count
         downloaded_files]; rewrite ?length_app; cbn [List.length];
    repeat split; try lia; try tauto; try assumption.
  - apply path_exists_write. assumption.
  - apply read_file_write; assumption.
  - unfold write_file, path_exists. cbn [existsb fst].
    rewrite String.eqb_refl. reflexivity.
Qed.

(** The counters of the loop. *)
Lemma download_weeks_counts (get : string -> http_response)
    (weekly_ranges : list week_range) (st : run) :
  let st' := download_weeks get weekly_ranges st in
  (downloaded_count st' + skipped_count st' + failed_count st'
   = downloaded_count st + skipped_count st + failed_count st
     + List.length weekly_ranges)%nat
  /\ (List.length (downloaded_files st')
      + downloaded_count st + skipped_count st
      = List.length (downloaded_files st)
        + downloaded_count st' + skipped_count st')%nat
  /\ (downloaded_count st <= downloaded_count st')%nat
  /\ (skipped_count st <= skipped_count st')%nat
  /\ (failed_count st <= failed_count st')%nat.
Proof.
  cbv zeta. unfold download_weeks. revert st.
  induction weekly_ranges as [|w ws IH]; intros st; cbn [fold_left List.length].
  - repeat split; lia.
  - specialize (IH (download_week get st w)).
    destruct (download_week_cases get st w)
      as [(He & E)|[(He & Hb & content & Hget & E)|(He & Hb & E)]];
      rewrite E in *;
      cbn [files requests downloaded_count skipped_count failed_count
           downloaded_files] in IH;
      rewrite ?length_app in IH; cbn [List.length] in IH;
      repeat split; lia.
Qed.

Lemma download_weeks_keeps (get : string -> http_response)
    (weekly_ranges : list week_range) (st : run) (path : string) :
  path_exists (files st) path = true ->
  path_exists (files (download_weeks get weekly_ranges st)) path = true
  /\ read_file (files (download_weeks get weekly_ranges st)) path
     = read_file (files st) path.
Proof.
  unfold download_weeks. revert st.
  induction weekly_ranges as [|w ws IH]; intros st Hp; cbn [fold_left];
    [split; [exact Hp|reflexivity]|].
  destruct (download_week_keeps get st w) as (_ & _ & _ & Hkeep & _).
  destruct (Hkeep path Hp) as [He Hr].
  destruct (IH _ He) as [He' Hr']. split; [exact He'|congruence].
Qed.


(** X11: every address the loop asks of the server is the address of a
    week of the list whose file was absent when the loop started (or was
    asked before the loop): a file found at the start is never asked
    for. *)
Theorem download_asks_for_absent_files (get : string -> http_response)
    (weekly_ranges : list week_range) (st : run) (url : string) :
  In url (requests (download_weeks get weekly_ranges st)) ->
  In url (requests st)
  \/ exists w, In w weekly_ranges /\ url = week_url w
               /\ path_exists (files st) (week_path w) = false.
Proof.
  unfold download_weeks. revert st.
  induction weekly_ranges as [|w ws IH]; intros st Hin; cbn [fold_left] in Hin;
    [now left|].
  destruct (IH _ Hin) as [Hold|(w' & Hw' & Hurl & Habs)].
  - destruct (download_week_cases get st w)
      as [(He & E)|[(He & Hb & content & Hget & E)|(He & Hb & E)]];
      rewrite E in Hold; cbn [requests] in Hold.
    + now left.
    + destruct Hold as [<-|Hold]; [|now left].
      right. exists w. repeat split; [now left|exact He].
    + destruct Hold as [<-|Hold]; [|now left].
      right. exists w. repeat split; [now left|exact He].
  - right. exists w'. repeat split; [now right|exact Hurl|].
    destruct (path_exists (files st) (week_path w')) eqn:E; [|reflexivity].
    destruct (download_week_keeps get st w) as (_ & _ & _ & Hkeep & _).
    rewrite (proj1 (Hkeep _ E)) in Habs. discriminate.
Qed.

Lemma download_weeks_skips get weekly_ranges : forall st,
  Forall (fun w => path_exists (files st) (week_path w) = true) weekly_ranges ->
  download_weeks get weekly_ranges st
  = mkrun (files st) (requests st) (downloaded_count st)
      (skipped_count st + List.length weekly_ranges)%nat (failed_count st)
      (downloaded_files st ++ map week_path weekly_ranges)%list.
Proof.
  unfold download_weeks.
  induction weekly_ranges as [|w ws IH]; intros st Hall; cbn [fold_left].
  - cbn [List.length map]. rewrite Nat.add_0_r, app_nil_r.
    destruct st; reflexivity.
  - inversion Hall as [|? ? Hw Hws]; subst.
    destruct (download_week_cases get st w)
      as [(He & E)|[(He & _)|(He & _)]]; try congruence.
    rewrite E, IH; cbn [files requests downloaded_count skipped_count
                         failed_count downloaded_files]; [|exact Hws].
    cbn [List.length map]. rewrite <- app_assoc. cbn [app].
    f_equal. lia.
Qed.

Lemma download_weeks_complete get weekly_ranges : forall st,
  failed_count (download_weeks get weekly_ranges st) = failed_count st ->
  Forall (fun w => path_exists (files (download_weeks get weekly_ranges st))
                     (week_path w) = true) weekly_ranges.
Proof.
  induction weekly_ranges as [|w ws IH]; intros st Hf; [constructor|].
  unfold download_weeks in *. cbn [fold_left] in *.
  destruct (download_week_keeps get st w) as (_ & _ & Hle & _ & Hdone).
  pose proof (download_weeks_counts get ws (download_week get st w)) as Hc.
  cbv zeta in Hc. unfold download_weeks in Hc.
  destruct Hc as (_ & _ & _ & _ & Hle').
  constructor.
  - apply download_weeks_keeps. apply Hdone. lia.
  - apply IH. lia.
Qed.

(** X12: after a run of the loop that counted no failure, a second run
    over the same weeks, whatever the server answers, asks nothing of the
    server, writes no file, and counts every week as skipped. *)
Theorem download_again (get get' : string -> http_response)
    (weekly_ranges : list week_range) (st : run) :
  let st1 := download_weeks get weekly_ranges st in
  let st2 := download_weeks get' weekly_ranges st1 in
  failed_count st1 = failed_count st ->
  files st2 = files st1 /\ requests st2 = requests st1
  /\ downloaded_count st2 = downloaded_count st1
  /\ failed_count st2 = failed_count st1
  /\ skipped_count st2
     = (skipped_count st1 + List.length weekly_ranges)%nat.
Proof.
  cbv zeta. intros Hf.
  rewrite (download_weeks_skips get' weekly_ranges _
             (download_weeks_complete get weekly_ranges st Hf)).
  repeat split.
Qed.

(** X13: when the server has no body to give (any status other than 200,
    an exception, or status 200 with an empty body), the loop writes no
    file and counts no download; every week either had its file at the
    start or was asked for. *)
Theorem download_without_body (get : string -> http_response)
    (weekly_ranges : list week_range) (st : run) :
  (forall url, has_body get url = false) ->
  let st' := download_weeks get weekly_ranges st in
  files st' = files st
  /\ downloaded_count st' = downloaded_count st
  /\ Forall (fun w => path_exists (files st) (week_path w) = true
                      \/ In (week_url w) (requests st')) weekly_ranges.
Proof.
  intros Hnone. cbv zeta. unfold download_weeks. revert st.
  induction weekly_ranges as [|w ws IH]; intros st; cbn [fold_left];
    [repeat split; constructor|].
  destruct (IH (download_week get st w)) as (Hfiles & Hcount & Hall).
  assert (Hreq : forall u, In u (requests (download_week get st w)) ->
                   In u (requests (fold_left (download_week get) ws
                                     (download_week get st w)))).
  { clear. generalize (download_week get st w). induction ws as [|x xs IHx];
      intros s u Hu; cbn [fold_left]; [exact Hu|].
    apply IHx.
    destruct (download_week_cases get s x)
      as [(_ & ->)|[(_ & _ & c & _ & ->)|(_ & _ & ->)]]; cbn [requests];
      [exact Hu|now right|now right]. }
  destruct (download_week_cases get st w)
    as [(He & E)|[(He & Hb & _)|(He & Hb & E)]].
  - rewrite E in *. cbn [files downloaded_count] in *.
    repeat split; try assumption. constructor; [now left|exact Hall].
  - rewrite Hnone in Hb. discriminate.
  - rewrite E in *. cbn [files downloaded_count requests] in *.
    repeat split; try assumption. constructor; [|exact Hall].
    right. apply Hreq. now left.
Qed.

(** X14: if the files listed in [downloaded_files] before the loop
    exist, the files listed after it exist. *)
Theorem downloaded_files_exist (get : string -> http_response)
    (weekly_ranges : list week_range) (st : run) :
  Forall (fun path => path_exists (files st) path = true)
    (downloaded_files st) ->
  Forall (fun path =>
            path_exists (files (download_weeks get weekly_ranges st)) path
            = true)
    (downloaded_files (download_weeks get weekly_ranges st)).
Proof.
  unfold download_weeks. revert st.
  induction weekly_ranges as [|w ws IH]; intros st Hall; cbn [fold_left];
    [exact Hall|].
  apply IH.
  destruct (download_week_cases get st w)
    as [(He & ->)|[(He & Hb & content & Hget & ->)|(He & Hb & ->)]];
    cbn [files downloaded_files].
  - apply Forall_app. split; [exact Hall|]. constructor; [exact He|constructor].
  - apply Forall_app. split.
    + eapply Forall_impl; [|exact Hall]. intros p Hp.
      apply path_exists_write. exact Hp.
    + constructor; [|constructor]. unfold write_file, path_exists.
      cbn [existsb fst]. rewrite String.eqb_refl. reflexivity.
  - exact Hall.
Qed.

(** X10: a file found at the start of the loop is there at its end, with
    the same content. *)
Theorem download_keeps_files (get : string -> http_response)
    (weekly_ranges : list week_range) (st : run) (path : string) :
  path_exists (files st) path = true ->
  path_exists (files (download_weeks get weekly_ranges st)) path = true
  /\ read_file (files (download_weeks get weekly_ranges st)) path
     = read_file (files st) path.
Proof. apply download_weeks_keeps. Qed.

Lemma download_keeps_files_witness :
  path_exists (files (download_weeks sample_get sample_weeks sample_run))
    (path_join OUTPUT_DIR "230101-230107.csv") = true
  /\ read_file (files (download_weeks sample_get sample_weeks sample_run))
       (path_join OUTPUT_DIR "230101-230107.csv")
     = read_file (files sample_run) (path_join OUTPUT_DIR "230101-230107.csv").
Proof.
  apply (download_keeps_files sample_get sample_weeks sample_run).
  reflexivity.
Defined.

Lemma download_asks_for_absent_files_witness :
  In (BASE_URL ++ "/230108-230114.csv") (requests sample_run)
  \/ exists w, In w sample_weeks
               /\ BASE_URL ++ "/230108-230114.csv" = week_url w
               /\ path_exists (files sample_run) (week_path w) = false.
Proof.
  apply (download_asks_for_absent_files sample_get sample_weeks sample_run).
  left. reflexivity.
Defined.

Lemma download_again_witness :
  files (download_weeks get_nothing sample_weeks
           (download_weeks sample_get sample_weeks sample_run))
  = files (download_weeks sample_get sample_weeks sample_run)
  /\ requests (download_weeks get_nothing sample_weeks
                 (download_weeks sample_get sample_weeks sample_run))
     = requests (download_weeks sample_get sample_weeks sample_run)
  /\ downloaded_count (download_weeks get_nothing sample_weeks
                         (download_weeks sample_get sample_weeks sample_run))
     = downloaded_count (download_weeks sample_get sample_weeks sample_run)
  /\ failed_count (download_weeks get_nothing sample_weeks
                     (download_weeks sample_get sample_weeks sample_run))
     = failed_count (download_weeks sample_get sample_weeks sample_run)
  /\ skipped_count (download_weeks get_nothing sample_weeks
                      (download_weeks sample_get sample_weeks sample_run))
     = (skipped_count (download_weeks sample_get sample_weeks sample_run)
        + List.length sample_weeks)%nat.
Proof.
  apply (download_again sample_get get_nothing sample_weeks sample_run).
  reflexivity.
Defined.

Lemma download_without_body_witness :
  files (download_weeks get_nothing sample_weeks sample_run)
  = files sample_run
  /\ downloaded_count (download_weeks get_nothing sample_weeks sample_run)
     = downloaded_count sample_run
  /\ Forall (fun w => path_exists (files sample_run) (week_path w) = true
                      \/ In (week_url w)
                           (requests (download_weeks get_nothing sample_weeks
                                        sample_run))) sample_weeks.
Proof.
  apply (download_without_body get_nothing sample_weeks sample_run).
  intros url. reflexivity.
Defined.

Lemma downloaded_files_exist_witness :
  Forall (fun path =>
            path_exists (files (download_weeks sample_get sample_weeks
                                  sample_run)) path = true)
    (downloaded_files (download_weeks sample_get sample_weeks sample_run)).
Proof.
  apply (downloaded_files_exist sample_get sample_weeks sample_run).
  constructor.
Defined.

(** X9: run on a day from 2023-01-01 to 9999-12-25, [main] returns; every
    week from 2023-01-01 to that day (the days between, divided by seven
    and rounded down, plus one) is counted once, as downloaded, skipped or
    failed; the files listed are the downloaded and the skipped ones; and
    the list file holds the lines built from that list. *)
Theorem main_counts (get : string -> http_response) (today : date)
    (fs : file_system) :
  valid_date today = true ->
  date_leb START_DATE today = true -> date_leb today LAST_SATURDAY = true ->
  exists st,
    main get today fs = Some (Ok st)
    /\ Z.of_nat (downloaded_count st + skipped_count st + failed_count st)
       = (toordinal today - toordinal START_DATE) / 7 + 1
    /\ List.length (downloaded_files st)
       = (downloaded_count st + skipped_count st)%nat
    /\ read_file (files st) (path_join OUTPUT_DIR "downloaded_files.txt")
       = Some (manifest (downloaded_files st)).
Proof.
  intros Hv Hlo Hhi.
  destruct (generate_weekly_ranges_weeks START_DATE today eq_refl Hv
              eq_refl Hhi)
    as (first & ws & Hfirst & Hfv & _ & Hgen & Hweeks).
  change (get_sunday START_DATE) with (Ok START_DATE) in Hfirst.
  injection Hfirst as <-.
  pose proof (weeks_from_length _ _ _ Hv Hweeks Hfv) as Hlen.
  apply (date_leb_toordinal _ _ Hfv Hv) in Hlo.
  pose proof (download_weeks_counts get ws (mkrun fs [] 0 0 0 [])) as Hc.
  cbv zeta in Hc.
  cbn [downloaded_count skipped_count failed_count downloaded_files
       List.length] in Hc.
  destruct Hc as (Hsum & Hlist & _).
  unfold main. rewrite Hgen. eexists. split; [reflexivity|].
  cbn [files requests downloaded_count skipped_count failed_count
       downloaded_files].
  split; [|split].
  - rewrite Hsum. cbn [Nat.add]. rewrite Hlen. Z.div_mod_to_equations. lia.
  - lia.
  - unfold read_file, write_file. cbn [find fst].
    rewrite String.eqb_refl. reflexivity.
Qed.

Lemma main_counts_witness :
  exists st,
    main sample_get (mkdate 2023 1 10) (files sample_run) = Some (Ok st)
    /\ Z.of_nat (downloaded_count st + skipped_count st + failed_count st)
       = (toordinal (mkdate 2023 1 10) - toordinal START_DATE) / 7 + 1
    /\ List.length (downloaded_files st)
       = (downloaded_count st + skipped_count st)%nat
    /\ read_file (files st) (path_join OUTPUT_DIR "downloaded_files.txt")
       = Some (manifest (downloaded_files st)).
Proof.
  apply (main_counts sample_get (mkdate 2023 1 10) (files sample_run));
    reflexivity.
Defined.

Example main_example :
  main sample_get (mkdate 2023 1 10) (files sample_run)
  = Some (Ok (mkrun
       [(path_join OUTPUT_DIR "downloaded_files.txt",
         "230101-230107.csv" ++ String "010" "230108-230114.csv"
         ++ String "010" "");
        (path_join OUTPUT_DIR "230108-230114.csv", "body");
        (path_join OUTPUT_DIR "230101-230107.csv", "old")]
       [BASE_URL ++ "/230108-230114.csv"] 1 1 0
       [path_join OUTPUT_DIR "230101-230107.csv";
        path_join OUTPUT_DIR "230108-230114.csv"])).
Proof. reflexivity. Qed.

(** ** More on the links, the labels and the cells *)

Lemma prefix_contains sub s : prefix sub s = true -> contains sub s = true.
Proof. intros H. destruct s; simpl in *; rewrite H; reflexivity. Qed.

Lemma contains_tail sub c s : contains sub s = true -> contains sub (String c s) = true.
Proof. intros H. cbn [contains]. rewrite H. apply orb_true_r. Qed.

Lemma contains_dot_csv h : contains ".csv" h = true -> contains "csv" h = true.
Proof.
  induction h as [|c h IH]; [discriminate|].
  cbn [contains]. intros H. apply orb_true_iff in H as [H|H].
  - apply orb_true_iff. right. apply prefix_contains.
    cbn [prefix] in H. destruct (ascii_dec "." c); [exact H|discriminate].
  - apply orb_true_iff. right. apply IH, H.
Qed.

Lemma href_filter_dot_csv (h : option string) :
  href_filter h
  = match h with
    | Some h => contains ".csv" h
    | None => false
    end.
Proof.
  destruct h as [h|]; [|reflexivity]. unfold href_filter.
  destruct (contains ".csv" h) eqn:Hc.
  - rewrite (contains_dot_csv h Hc). destruct h; [discriminate|reflexivity].
  - apply andb_false_iff. left. apply andb_false_r.
Qed.

Lemma find_first {A : Type} (p : A -> bool) l x :
  find p l = Some x <->
  exists before after,
    l = (before ++ x :: after)%list /\ p x = true
    /\ Forall (fun y => p y = false) before.
Proof.
  split.
  - induction l as [|a l IH]; [discriminate|]. cbn [find].
    destruct (p a) eqn:Ha.
    + intros E. injection E as <-. exists [], l. repeat split; [exact Ha|constructor].
    + intros E. destruct (IH E) as (before & after & -> & Hx & Hb).
      exists (a :: before), after. repeat split; [exact Hx|].
      constructor; assumption.
  - intros (before & after & -> & Hx & Hb).
    induction before as [|a before IH]; cbn [app find].
    + rewrite Hx. reflexivity.
    + inversion Hb as [|? ? Ha Hb']; subst. rewrite Ha. apply IH, Hb'.
Qed.

Section LocateFirst.

Variable urljoin : string -> string -> string.

(** X16: [locate_latest] answers with an address exactly when the page
    has a tag [a] whose [href] holds the text [.csv], and the address is
    [urljoin] of the page's address and the [href] of the first such tag:
    every tag before it is not an [a], or has no [href], or an [href]
    without [.csv]. *)
Theorem locate_latest_first (soup : list tag) (csv_url : string) :
  locate_latest urljoin soup = Some csv_url <->
  exists before link after h,
    soup = (before ++ link :: after)%list
    /\ tag_name link = "a" /\ href link = Some h
    /\ contains ".csv" h = true
    /\ csv_url = urljoin base_url h
    /\ Forall (fun t => tag_name t <> "a"
                        \/ match href t with
                           | Some h' => contains ".csv" h' = false
                           | None => True
                           end) before.
Proof.
  unfold locate_latest, find_csv_link. split.
  - destruct (find _ soup) as [link|] eqn:E; [|discriminate].
    apply find_first in E as (before & after & -> & Hp & Hb).
    apply andb_true_iff in Hp as [Hn Hf]. apply String.eqb_eq in Hn.
    rewrite href_filter_dot_csv in Hf.
    destruct (href link) as [h|] eqn:Hh; [|discriminate].
    intros H. injection H as <-.
    exists before, link, after, h. repeat split; try assumption.
    eapply Forall_impl; [|exact Hb]. intros t Ht.
    apply andb_false_iff in Ht as [Ht|Ht].
    + left. now apply String.eqb_neq.
    + right. rewrite href_filter_dot_csv in Ht.
      destruct (href t); [exact Ht|exact I].
  - intros (before & link & after & h & -> & Hn & Hh & Hc & -> & Hb).
    assert (E : find (fun t => String.eqb (tag_name t) "a" && href_filter (href t))
                  (before ++ link :: after) = Some link).
    { apply find_first. exists before, after. repeat split.
      - rewrite Hn, String.eqb_refl, href_filter_dot_csv, Hh. exact Hc.
      - eapply Forall_impl; [|exact Hb]. intros t [Ht|Ht].
        + apply String.eqb_neq in Ht. rewrite Ht. reflexivity.
        + rewrite href_filter_dot_csv. apply andb_false_iff. right.
          destruct (href t); [exact Ht|reflexivity]. }
    rewrite E, Hh. reflexivity.
Qed.

End LocateFirst.

Lemma split_slash_nonempty s : split_slash s <> [].
Proof.
  destruct s as [|c s]; [discriminate|]. cbn [split_slash].
  destruct (Ascii.eqb c "/"); [discriminate|].
  destruct (split_slash s); discriminate.
Qed.

Lemma last_cons_nonempty {A : Type} (a : A) l d :
  l <> [] -> last (a :: l) d = last l d.
Proof. destruct l; [congruence|reflexivity]. Qed.

Lemma contains_slash_cons c s :
  contains "/" (String c s) = Ascii.eqb c "/" || contains "/" s.
Proof.
  cbn [contains prefix]. destruct (ascii_dec "/" c) as [<-|Hne].
  - destruct s; reflexivity.
  - rewrite (proj2 (Ascii.eqb_neq c "/")) by congruence. reflexivity.
Qed.

Lemma split_slash_one s piece :
  split_slash s = [piece] -> s = piece /\ contains "/" s = false.
Proof.
  revert piece. induction s as [|c s IH]; intros piece E.
  - injection E as <-. split; reflexivity.
  - cbn [split_slash] in E. rewrite contains_slash_cons.
    destruct (Ascii.eqb c "/").
    + pose proof (split_slash_nonempty s). injection E as _ E. congruence.
    + destruct (split_slash s) as [|x [|y l]] eqn:E';
        [exfalso; apply (split_slash_nonempty s E')| |discriminate].
      injection E as <-. destruct (IH x eq_refl) as [Hs Hc].
      split; [now rewrite Hs|exact Hc].
Qed.

Lemma split_slash_no_slash s :
  contains "/" s = false -> split_slash s = [s].
Proof.
  induction s as [|c s IH]; [reflexivity|].
  rewrite contains_slash_cons. intros H.
  apply orb_false_iff in H as [Hc Hs]. cbn [split_slash].
  rewrite Hc, (IH Hs). reflexivity.
Qed.

Lemma file_name_of_url_parts (csv_url : string) :
  contains "/" (file_name_of_url csv_url) = false
  /\ exists dir,
       csv_url = dir ++ file_name_of_url csv_url
       /\ (dir = "" \/ exists d, dir = d ++ "/").
Proof.
  unfold file_name_of_url.
  induction csv_url as [|c s [IHc (dir & IHd & IHe)]].
  - split; [reflexivity|]. exists "". split; [reflexivity|now left].
  - cbn [split_slash]. destruct (Ascii.eqb_spec c "/") as [->|Hne].
    + rewrite last_cons_nonempty by apply split_slash_nonempty.
      split; [exact IHc|]. exists (String "/" dir). split.
      * cbn [append]. now rewrite <- IHd.
      * right. destruct IHe as [->|(d & ->)].
        -- exists "". reflexivity.
        -- exists (String "/" d). reflexivity.
    + pose proof (split_slash_nonempty s) as Hs.
      destruct (split_slash s) as [|piece pieces] eqn:E; [congruence|].
      destruct pieces as [|p2 pieces].
      * destruct (split_slash_one s piece E) as [-> Hno].
        cbn [last]. split.
        -- rewrite contains_slash_cons, Hno.
           rewrite (proj2 (Ascii.eqb_neq c "/")) by assumption. reflexivity.
        -- exists "". split; [reflexivity|now left].
      * rewrite last_cons_nonempty by discriminate.
        split; [exact IHc|]. destruct IHe as [->|(d & ->)].
        -- exfalso. cbn [append] in IHd. rewrite <- IHd in IHc.
           rewrite (split_slash_no_slash s IHc) in E. discriminate.
        -- exists (String c (d ++ "/")). split.
           ++ cbn [append]. f_equal. exact IHd.
           ++ right. exists (String c d). reflexivity.
Qed.

Example file_name_of_url_examples :
  file_name_of_url
    "https://www.customs.go.jp/tetsuzuki/kawase/csv/240107-240113.csv"
  = "240107-240113.csv"
  /\ file_name_of_url "https://www.customs.go.jp/tetsuzuki/kawase/csv/" = "".
Proof. split; reflexivity. Qed.

Lemma lstrip_spec s :
  exists l, s = l ++ lstrip s /\ all_space l = true
            /\ match lstrip s with
               | EmptyString => True
               | String c _ => is_space c = false
               end.
Proof.
  induction s as [|c s (l & Hs & Hl & Hh)].
  - exists "". repeat split.
  - cbn [lstrip]. destruct (is_space c) eqn:Hc.
    + exists (String c l). cbn [append all_space]. rewrite Hc, Hl.
      repeat split; [now rewrite <- Hs|exact Hh].
    + exists "". repeat split. exact Hc.
Qed.

Lemma rstrip_spec s :
  exists r, s = rstrip s ++ r /\ all_space r = true.
Proof.
  induction s as [|c s (r & Hs & Hr)].
  - exists "". split; reflexivity.
  - cbn [rstrip]. destruct (rstrip s) as [|c' t] eqn:E.
    + cbn [append] in Hs. subst r. destruct (is_space c) eqn:Hc.
      * exists (String c s). cbn [append all_space]. rewrite Hc, Hr.
        split; reflexivity.
      * exists s. split; [reflexivity|exact Hr].
    + exists r. cbn [append] in *. split; [now rewrite <- Hs|exact Hr].
Qed.

Lemma rstrip_all_space r : all_space r = true -> rstrip r = "".
Proof.
  induction r as [|c r IH]; [reflexivity|]. cbn [all_space rstrip].
  intros H. apply andb_true_iff in H as [Hc Hr]. rewrite (IH Hr), Hc.
  reflexivity.
Qed.

Lemma rstrip_app_space s r :
  all_space r = true -> rstrip (s ++ r) = rstrip s.
Proof.
  intros Hr. induction s as [|c s IH]; cbn [append rstrip].
  - apply rstrip_all_space, Hr.
  - rewrite IH. reflexivity.
Qed.

Lemma lstrip_app_space l s :
  all_space l = true -> lstrip (l ++ s) = lstrip s.
Proof.
  induction l as [|c l IH]; [reflexivity|]. cbn [all_space append lstrip].
  intros H. apply andb_true_iff in H as [-> Hl]. apply IH, Hl.
Qed.

(** X18: the labels that [strip] turns into ISO are the text ISO with
    white space before it and after it, and no others. *)
Theorem strip_ISO (label : string) :
  strip label = "ISO" <->
  exists l r, label = l ++ "ISO" ++ r
              /\ all_space l = true /\ all_space r = true.
Proof.
  unfold strip. split.
  - intros H. destruct (lstrip_spec label) as (l & Hl & Hls & _).
    destruct (rstrip_spec (lstrip label)) as (r & Hr & Hrs).
    rewrite H in Hr. exists l, r. rewrite Hl at 1. rewrite Hr at 1.
    repeat split; assumption.
  - intros (l & r & -> & Hl & Hr).
    rewrite (lstrip_app_space l _ Hl).
    change (lstrip ("ISO" ++ r)) with ("ISO" ++ r).
    rewrite (rstrip_app_space "ISO" r Hr). reflexivity.
Qed.

Example strip_ISO_examples :
  strip (String "009" " ISO  ") = "ISO" /\ strip "iso" = "iso"
  /\ strip "I SO" = "I SO" /\ strip "   " = "".
Proof. repeat split. Qed.

Lemma remove_commas_app a b :
  remove_commas (a ++ b) = remove_commas a ++ remove_commas b.
Proof.
  induction a as [|c a IH]; [reflexivity|]. cbn [append remove_commas].
  destruct (Ascii.eqb c ","); [exact IH|]. cbn [append]. now rewrite IH.
Qed.

Lemma contains_comma_cons c s :
  contains "," (String c s) = Ascii.eqb c "," || contains "," s.
Proof.
  cbn [contains prefix]. destruct (ascii_dec "," c) as [<-|Hne].
  - destruct s; reflexivity.
  - rewrite (proj2 (Ascii.eqb_neq c ",")) by congruence. reflexivity.
Qed.

Section ToFloat.

Variable float_of_str : string -> option float.

(** X19: [to_float] reads a cell as if its commas were not there,
    wherever they stand; the text it hands to [float] holds no comma, and
    a cell without commas is handed over as it is. *)
Theorem to_float_ignores_commas (a b : string) :
  to_float float_of_str (a ++ "," ++ b) = to_float float_of_str (a ++ b)
  /\ contains "," (remove_commas (a ++ b)) = false
  /\ (contains "," a = false -> to_float float_of_str a = float_of_str a).
Proof.
  unfold to_float. repeat split.
  - rewrite !remove_commas_app. reflexivity.
  - induction (a ++ b) as [|c s IH]; [reflexivity|]. cbn [remove_commas].
    destruct (Ascii.eqb c ",") eqn:Hc; [exact IH|].
    rewrite contains_comma_cons, Hc, IH. reflexivity.
  - intros H. f_equal. induction a as [|c a IH]; [reflexivity|].
    rewrite contains_comma_cons in H. apply orb_false_iff in H as [Hc Ha].
    cbn [remove_commas]. rewrite Hc, (IH Ha). reflexivity.
Qed.


(** X21: for a file name with two matches or more the answer of the
    extraction does not depend on the day of the run. *)
Theorem extract_rate_without_clock (today today' : date) (df : DataFrame)
    (file_name : string) :
  (2 <= List.length (findall_d6 file_name))%nat ->
  extract_rate float_of_str today df file_name
  = extract_rate float_of_str today' df file_name.
Proof.
  intros H. unfold extract_rate, extract_dates.
  destruct (findall_d6 file_name) as [|m0 [|m1 rest]];
    [simpl in H; lia|simpl in H; lia|]. reflexivity.
Qed.

End ToFloat.

(** X22: the dates taken from a file name are dates of the years 2000 to
    2099, and come from a name with two matches or more; the dates of the
    other branch are both the day of the run, and come from a name with
    fewer than two matches. *)
Theorem extract_dates_century (today : date) (file_name : string)
    (src : date_source) (start_date end_date : date) :
  extract_dates today file_name = Ok (src, start_date, end_date) ->
  match src with
  | FromFilename =>
      valid_date start_date = true /\ valid_date end_date = true
      /\ 2000 <= year start_date <= 2099 /\ 2000 <= year end_date <= 2099
      /\ (2 <= List.length (findall_d6 file_name))%nat
  | CurrentDate =>
      start_date = today /\ end_date = today
      /\ (List.length (findall_d6 file_name) < 2)%nat
  end.
Proof.
  unfold extract_dates. intros H.
  pose proof (findall_d6_six_digits file_name) as Hsix.
  destruct (findall_d6 file_name) as [|m0 [|m1 rest]].
  - injection H as <- <- <-. repeat split. simpl. lia.
  - injection H as <- <- <-. repeat split. simpl. lia.
  - inversion Hsix as [|? ? [Hl0 Hd0] Hsix']; subst.
    inversion Hsix' as [|? ? [Hl1 Hd1] _]; subst.
    destruct (to_datetime_Ymd ("20" ++ m0)) as [d0|] eqn:E0; cbn [bind] in H;
      [|discriminate].
    destruct (to_datetime_Ymd ("20" ++ m1)) as [d1|] eqn:E1; cbn [bind] in H;
      [|discriminate].
    injection H as <- <- <-.
    destruct (to_datetime_Ymd_block m0 d0 Hl0 E0) as [Hd0eq Hv0].
    destruct (to_datetime_Ymd_block m1 d1 Hl1 E1) as [Hd1eq Hv1].
    assert (Hrange : forall m, String.length m = 6%nat -> all_digits m = true ->
              0 <= int_of_digits 0 (substring 0 2 m) <= 99).
    { intros m Hl Hd.
      destruct m as [|c1 [|c2 m]]; try discriminate.
      cbn [substring int_of_digits all_digits] in *.
      destruct m; cbn [substring int_of_digits];
        apply andb_true_iff in Hd as [H1 Hd];
        apply andb_true_iff in Hd as [H2 _];
        unfold is_digit, digit_value in *;
        apply andb_true_iff in H1 as [? ?], H2 as [? ?]; lia. }
    pose proof (Hrange m0 Hl0 Hd0). pose proof (Hrange m1 Hl1 Hd1).
    rewrite Hd0eq, Hd1eq in *. cbn [year].
    repeat split; try assumption; try lia. simpl. lia.
Qed.


(** X15: the filter of the links is the test [".csv" in h] alone: the
    test for [csv] and the test for an empty [href] never change its
    answer. *)
Theorem href_filter_is_dot_csv (h : option string) :
  href_filter h
  = match h with
    | Some h => contains ".csv" h
    | None => false
    end.
Proof. apply href_filter_dot_csv. Qed.

(** X17: the file name taken from an address holds no slash, and the
    address is that file name after a part that is empty or ends with a
    slash; an address that ends with a slash has the empty file name. *)
Theorem file_name_of_url_spec (csv_url : string) :
  contains "/" (file_name_of_url csv_url) = false
  /\ exists dir,
       csv_url = dir ++ file_name_of_url csv_url
       /\ (dir = "" \/ exists d, dir = d ++ "/").
Proof. apply file_name_of_url_parts. Qed.


Lemma extract_rate_without_clock_witness :
  extract_rate float_of_sample (mkdate 2026 11 4) sample_frame
    "240107-240113.csv"
  = extract_rate float_of_sample (mkdate 2030 1 1) sample_frame
      "240107-240113.csv".
Proof.
  apply (extract_rate_without_clock float_of_sample (mkdate 2026 11 4)
           (mkdate 2030 1 1) sample_frame "240107-240113.csv").
  simpl. lia.
Defined.

Lemma extract_dates_century_witness :
  valid_date (mkdate 2024 1 7) = true /\ valid_date (mkdate 2024 1 13) = true
  /\ 2000 <= year (mkdate 2024 1 7) <= 2099
  /\ 2000 <= year (mkdate 2024 1 13) <= 2099
  /\ (2 <= List.length (findall_d6 "240107-240113.csv"))%nat.
Proof.
  apply (extract_dates_century sample_today "240107-240113.csv" FromFilename
           (mkdate 2024 1 7) (mkdate 2024 1 13)). reflexivity.
Defined.

(** ** The whole of [fetch_customs_rate] *)

Section PipelineFacts.

Variable requests_get : string -> option string.
Variable html_parser : string -> list tag.
Variable urljoin : string -> string -> string.
Variable blob_upload : string -> string -> bool.
Variable read_csv : string -> string -> read_result.
Variable float_of_str : string -> option float.
Variable load_table : ExchangeRateRecord -> bool.
Variable today : date.

Local Abbreviation fetch :=
  (fetch_customs_rate requests_get html_parser urljoin blob_upload read_csv
     float_of_str load_table today).

(** X23: one call of [fetch_customs_rate] appends the loaded record to
    the table when its answer is the success, and leaves the table as it
    was for every other answer. *)
Theorem table_appended_on_success (st : stores) :
  match fst (fetch st) with
  | Extracted (Loaded r) =>
      table (snd (fetch st)) = (table st ++ [r])%list
  | _ => table (snd (fetch st)) = table st
  end.
Proof.
  unfold fetch_customs_rate.
  destruct (requests_get base_url) as [content|]; [|reflexivity].
  destruct (locate_latest urljoin (html_parser content)) as [csv_url|];
    [|reflexivity].
  destruct (requests_get csv_url) as [bytes|]; [|reflexivity].
  destruct (blob_upload _ bytes); [|reflexivity].
  destruct (read_frame read_csv bytes) as [df|]; [|reflexivity].
  destruct (extract_rate float_of_str today df (file_name_of_url csv_url))
    as [r| | | |e] eqn:E; try reflexivity.
  destruct (load_table r); reflexivity.
Qed.

(** X24: the raw file is stored before it is parsed: whenever the answer
    comes from the extraction, or from a failure to read the file or to
    load the row, the bucket has gained the bytes of the bulletin under
    [raw_customs_csv/] and the file name, which holds no slash; when the
    link is not found, a request fails or the upload fails, the bucket is
    as it was. *)
Theorem raw_file_stored_before_parsing (st : stores) :
  match fst (fetch st) with
  | Extracted _ | Failed ReadFailed | Failed LoadFailed =>
      exists content csv_url csv_content_bytes,
        requests_get base_url = Some content
        /\ locate_latest urljoin (html_parser content) = Some csv_url
        /\ requests_get csv_url = Some csv_content_bytes
        /\ bucket (snd (fetch st))
           = ("raw_customs_csv/" ++ file_name_of_url csv_url,
              csv_content_bytes) :: bucket st
        /\ contains "/" (file_name_of_url csv_url) = false
  | CsvLinkNotFound | Failed RequestFailed | Failed UploadFailed =>
      bucket (snd (fetch st)) = bucket st
  end.
Proof.
  unfold fetch_customs_rate.
  destruct (requests_get base_url) as [content|] eqn:E1; [|reflexivity].
  destruct (locate_latest urljoin (html_parser content)) as [csv_url|] eqn:E2;
    [|reflexivity].
  destruct (requests_get csv_url) as [bytes|] eqn:E3; [|reflexivity].
  destruct (blob_upload _ bytes); [|reflexivity].
  assert (H : exists content0 csv_url0 csv_content_bytes,
             Some content = Some content0
             /\ locate_latest urljoin (html_parser content0) = Some csv_url0
             /\ requests_get csv_url0 = Some csv_content_bytes
             /\ ("raw_customs_csv/" ++ file_name_of_url csv_url, bytes)
                  :: bucket st
                = ("raw_customs_csv/" ++ file_name_of_url csv_url0,
                   csv_content_bytes) :: bucket st
             /\ contains "/" (file_name_of_url csv_url0) = false).
  { exists content, csv_url, bytes. repeat split; try assumption.
    apply file_name_of_url_parts. }
  destruct (read_frame read_csv bytes) as [df|]; [|exact H].
  destruct (extract_rate float_of_str today df (file_name_of_url csv_url))
    as [r| | | |e]; try exact H.
  destruct (load_table r); exact H.
Qed.

End PipelineFacts.
